(** * Statistical detectors: the moving-average cross-over algorithm

    A shallow embedding of [sentry/statistical_detectors/algorithm.py]:
    the persisted detector state with its Redis mapping, the detector
    configuration, and the cross-over detector itself ([__init__],
    [update] and the [state] property), followed by the properties the
    specification states about them.

    Python values are modelled as follows.
    - [int] is [Z] (unbounded).
    - [float] is the primitive binary64 [float] of the kernel, so the
      comparisons [<], [<=] are the IEEE ones (false on NaN).
    - an aware [datetime] is the number of microseconds since the Unix
      epoch, a [Z]; comparison of aware datetimes compares instants.
    - a raised exception is the [Raise] branch of [result].
    - the Redis mapping is a [gmap] from field names to [redis_value]. *)

From Stdlib Require Import ZArith Lia Bool List Ascii String Floats Sorted.
From stdpp Require Import base option strings gmap.

Local Open Scope Z_scope.

(** ** Exceptions *)

Inductive exn : Type :=
| KeyError (key : string)
| ValueError
| OverflowError
| OSError.

Inductive result (A : Type) : Type :=
| Ok (a : A)
| Raise (e : exn).

Arguments Ok {A} a.
Arguments Raise {A} e.

#[global] Instance result_ret : MRet result := fun _ a => Ok a.

#[global] Instance result_bind : MBind result := fun _ _ k r =>
  match r with
  | Ok a => k a
  | Raise e => Raise e
  end.

Definition raises {A : Type} (r : result A) : Prop :=
  match r with
  | Ok _ => False
  | Raise _ => True
  end.

(** ** Python numbers *)

Module PyNum.

(** The smallest exponent of a binary64 mantissa (subnormals) and the
    largest one. *)
Definition emin : Z := -1074.
Definition etop : Z := 971.

(** [n / d] rounded to the nearest integer, ties to even. *)
Definition round_half_even (n d : Z) : Z :=
  let q := n / d in
  let r := n mod d in
  if (d <? 2 * r) || ((d =? 2 * r) && Z.odd q) then q + 1 else q.

(** The exponent [e] of the binary64 nearest to [a / b] ([a], [b]
    positive): the quotient of [a] by [b * 2^e] has 53 bits, unless
    that takes [e] below [emin]. *)
Definition ratio_exponent (a b : Z) : Z :=
  let e0 := Z.log2 a - Z.log2 b in
  let e1 :=
    if a * 2 ^ Z.max 0 (- e0) <? b * 2 ^ Z.max 0 e0 then e0 - 1 else e0 in
  Z.max (e1 - 52) emin.

(** [a / b] ([a], [b] positive) correctly rounded to binary64, with
    sign [s]; an infinity when the quotient is too large. This is the
    rounding of CPython's [long_true_divide], [PyLong_AsDouble] and
    [PyOS_string_to_double]. *)
Definition SF_of_ratio (s : bool) (a b : Z) : spec_float :=
  let e := ratio_exponent a b in
  let m := round_half_even (a * 2 ^ Z.max 0 (- e)) (b * 2 ^ Z.max 0 e) in
  if m =? 0 then S754_zero s
  else
    let '(m', e') := if m =? 2 ^ 53 then (2 ^ 52, e + 1) else (m, e) in
    if e' <=? etop then S754_finite s (Z.to_pos m') e' else S754_infinity s.

(** The signed quotient [a / b], [b] positive. *)
Definition SF_of_Zratio (a b : Z) : spec_float :=
  match a with
  | Z0 => S754_zero false
  | Zpos p => SF_of_ratio false (Zpos p) b
  | Zneg p => SF_of_ratio true (Zpos p) b
  end.

Definition is_finite_SF (x : spec_float) : bool :=
  match x with
  | S754_zero _ | S754_finite _ _ _ => true
  | _ => false
  end.

(** [a / b] on two ints with [b] positive: [OverflowError] when the
    result is too large for a float. *)
Definition truediv (a b : Z) : result float :=
  let x := SF_of_Zratio a b in
  if is_finite_SF x then Ok (SF2Prim x) else Raise OverflowError.

(** [float(z)] on an int. *)
Definition float_of_int (z : Z) : result float := truediv z 1.

(** The same where the int is known to fit (a sample count): the
    nearest float. *)
Definition float_of_Z (z : Z) : float := SF2Prim (SF_of_Zratio z 1).

(** The integer part of a finite float, rounded toward zero. *)
Definition trunc_SF (x : spec_float) : result Z :=
  match x with
  | S754_zero _ => Ok 0
  | S754_finite s m e =>
      let n := if 0 <=? e then Zpos m * 2 ^ e else Zpos m / 2 ^ (- e) in
      Ok (if s then - n else n)
  | S754_infinity _ => Raise OverflowError
  | S754_nan => Raise ValueError
  end.

(** [int(x)] on a float: [ValueError] on NaN, [OverflowError] on an
    infinity. *)
Definition int_of_float (x : float) : result Z := trunc_SF (Prim2SF x).

End PyNum.

(** ** Python text: what [int(s)] and [float(s)] accept

    Text is one [ascii] per character: the bytes of a [bytes], and the
    characters of a [str], which are taken to be below 256. The parsers
    below are those of [bytes]; a [str] goes through [of_str] first. *)

Module PyText.

Definition is_space (c : ascii) : bool :=
  let n := Z.of_N (N_of_ascii c) in
  ((9 <=? n) && (n <=? 13)) || (n =? 32).

Fixpoint lstrip (l : list ascii) : list ascii :=
  match l with
  | c :: l' => if is_space c then lstrip l' else l
  | [] => []
  end.

Definition strip (l : list ascii) : list ascii :=
  rev (lstrip (rev (lstrip l))).

Definition digit_of (c : ascii) : option Z :=
  let n := Z.of_N (N_of_ascii c) in
  if (48 <=? n) && (n <=? 57) then Some (n - 48) else None.

Definition is_underscore (c : ascii) : bool := Ascii.eqb c "_"%char.

(** The rest of a digit group after a digit: digits, each underscore
    between two digits. [acc] is the value read so far and [n] the
    number of digits. *)
Fixpoint digits_after_digit (acc n : Z) (l : list ascii) : option (Z * Z) :=
  match l with
  | [] => Some (acc, n)
  | c :: l' =>
      match digit_of c with
      | Some d => digits_after_digit (10 * acc + d) (n + 1) l'
      | None =>
          if is_underscore c then
            match l' with
            | c' :: l'' =>
                match digit_of c' with
                | Some d => digits_after_digit (10 * acc + d) (n + 1) l''
                | None => None
                end
            | [] => None
            end
          else None
      end
  end.

(** A non-empty digit group: its value and its number of digits. *)
Definition digits (l : list ascii) : option (Z * Z) :=
  match l with
  | c :: l' =>
      match digit_of c with
      | Some d => digits_after_digit d 1 l'
      | None => None
      end
  | [] => None
  end.

(** A digit group that may be empty (the two sides of the point). *)
Definition digits_opt (l : list ascii) : option (Z * Z) :=
  match l with
  | [] => Some (0, 0)
  | _ => digits l
  end.

Definition split_sign (l : list ascii) : bool * list ascii :=
  match l with
  | "-"%char :: l' => (true, l')
  | "+"%char :: l' => (false, l')
  | _ => (false, l)
  end.

(** The most digits [int()] reads from text: the default of
    [sys.get_int_max_str_digits()]. *)
Definition max_str_digits : Z := 4300.

(** [int(s)] on text, base 10. *)
Definition parse_int (s : string) : result Z :=
  let '(neg, l) := split_sign (strip (list_ascii_of_string s)) in
  match digits l with
  | Some (v, n) =>
      if max_str_digits <? n then Raise ValueError
      else Ok (if neg then - v else v)
  | None => Raise ValueError
  end.

(** [int()] and [float()] read a [str] with every space that is not
    ASCII turned into an ASCII one: below 256 these are U+0085 and
    U+00A0. *)
Definition ascii_space (c : ascii) : ascii :=
  let n := Z.of_N (N_of_ascii c) in
  if (n =? 133) || (n =? 160) then " "%char else c.

Definition of_str (s : string) : string :=
  string_of_list_ascii (map ascii_space (list_ascii_of_string s)).

Definition lower (c : ascii) : ascii :=
  let n := N_of_ascii c in
  if ((65 <=? n) && (n <=? 90))%N then ascii_of_N (n + 32) else c.

Definition is_group_char (c : ascii) : bool :=
  match digit_of c with
  | Some _ => true
  | None => is_underscore c
  end.

(** The longest prefix of digits and underscores, and what follows. *)
Fixpoint span_group (l : list ascii) : list ascii * list ascii :=
  match l with
  | c :: l' =>
      if is_group_char c then
        let '(g, r) := span_group l' in (c :: g, r)
      else ([], l)
  | [] => ([], [])
  end.

(** The exponent part: nothing, or [e] or [E], a sign and digits. *)
Definition exponent (l : list ascii) : option Z :=
  match l with
  | [] => Some 0
  | c :: l' =>
      if Ascii.eqb (lower c) "e"%char then
        let '(neg, l'') := split_sign l' in
        match digits l'' with
        | Some (x, _) => Some (if neg then - x else x)
        | None => None
        end
      else None
  end.

(** A decimal literal [digits [. digits] [exponent]], at least one
    digit before the exponent: the integer [m] and the power of ten
    [x] with value [m * 10^x]. *)
Definition decimal (l : list ascii) : option (Z * Z) :=
  let '(ip, r) := span_group l in
  let '(fp, r') :=
    match r with
    | "."%char :: r0 => span_group r0
    | _ => ([], r)
    end in
  match ip, fp with
  | [], [] => None
  | _, _ =>
      match digits_opt ip, digits_opt fp, exponent r' with
      | Some (iv, _), Some (fv, fn), Some x =>
          Some (iv * 10 ^ fn + fv, x - fn)
      | _, _, _ => None
      end
  end.

(** [m * 10^x] ([m] not negative) as the nearest binary64. *)
Definition SF_of_decimal (s : bool) (m x : Z) : spec_float :=
  if m =? 0 then S754_zero s
  else if 0 <=? x then PyNum.SF_of_ratio s (m * 10 ^ x) 1
  else PyNum.SF_of_ratio s m (10 ^ (- x)).

Definition is_word (w : string) (l : list ascii) : bool :=
  if decide (map lower l = list_ascii_of_string w) then true else false.

(** [float(s)] on text. *)
Definition parse_float (s : string) : result float :=
  let '(neg, l) := split_sign (strip (list_ascii_of_string s)) in
  if is_word "inf" l || is_word "infinity" l then
    Ok (if neg then neg_infinity else infinity)
  else if is_word "nan" l then Ok nan
  else
    match decimal l with
    | Some (m, x) => Ok (SF2Prim (SF_of_decimal neg m x))
    | None => Raise ValueError
    end.

End PyText.

(** ** Values of the Redis mapping

    [to_redis_dict] writes ints and floats; what is read back from
    Redis is text ([str] or [bytes]). *)

Inductive redis_value : Type :=
| RInt (z : Z)
| RFloat (x : float)
| RStr (s : string)
| RBytes (s : string).

(** [int(v)] *)
Definition py_int (v : redis_value) : result Z :=
  match v with
  | RInt z => Ok z
  | RFloat x => PyNum.int_of_float x
  | RStr s => PyText.parse_int (PyText.of_str s)
  | RBytes s => PyText.parse_int s
  end.

(** [float(v)] *)
Definition py_float (v : redis_value) : result float :=
  match v with
  | RInt z => PyNum.float_of_int z
  | RFloat x => Ok x
  | RStr s => PyText.parse_float (PyText.of_str s)
  | RBytes s => PyText.parse_float s
  end.

(** [data[key]] *)
Definition getitem (data : gmap string redis_value) (key : string)
  : result redis_value :=
  match data !! key with
  | Some v => Ok v
  | None => Raise (KeyError key)
  end.

(** ** Aware datetimes

    An aware [datetime] is an instant: its microseconds since the Unix
    epoch. Python's datetimes span the years 1 to 9999. *)

Definition datetime : Type := Z.

Module Datetime.

Definition min_seconds : Z := -62135596800.
Definition max_seconds : Z := 253402300799.

(** The instants a [datetime] can hold. *)
Definition in_range (d : datetime) : Prop :=
  min_seconds * 1000000 <= d <= max_seconds * 1000000 + 999999.

(** No microsecond part. *)
Definition whole_second (d : datetime) : Prop := d mod 1000000 = 0.

(** [d.timestamp()]: [(d - epoch).total_seconds()], the microseconds
    divided by [10**6] as a float. *)
Definition timestamp (d : datetime) : result float :=
  PyNum.truediv d 1000000.



(** The seconds that [gmtime] turns into a date: those whose year fits
    the C [int] of [tm_year] (glibc, 64-bit [time_t]). *)
Definition gmtime_min : Z := -67768040609740800.
Definition gmtime_max : Z := 67768036191676799.

(** [datetime.fromtimestamp(t, timezone.utc)] on an int: an
    [OverflowError] outside [time_t], an [OSError] where [gmtime] fails,
    a [ValueError] for a year outside 1 to 9999. *)
Definition fromtimestamp (t : Z) : result datetime :=
  if (t <? - 2 ^ 63) || (2 ^ 63 <=? t) then Raise OverflowError
  else if (t <? gmtime_min) || (gmtime_max <? t) then Raise OSError
  else if (t <? min_seconds) || (max_seconds <? t) then Raise ValueError
  else Ok (t * 1000000).

End Datetime.

(** ** The persisted state *)

Module State.

Record MovingAverageCrossOverDetectorState : Type := {
  timestamp : option datetime;
  count : Z;
  moving_avg_short : float;
  moving_avg_long : float;
}.

Definition FIELD_TIMESTAMP : string := "T".
Definition FIELD_COUNT : string := "C".
Definition FIELD_MOVING_AVG_SHORT : string := "S".
Definition FIELD_MOVING_AVG_LONG : string := "L".

Definition to_redis_dict (self : MovingAverageCrossOverDetectorState)
  : result (gmap string redis_value) :=
  let d : gmap string redis_value :=
    <[FIELD_MOVING_AVG_LONG := RFloat (moving_avg_long self)]>
      (<[FIELD_MOVING_AVG_SHORT := RFloat (moving_avg_short self)]>
         (<[FIELD_COUNT := RInt (count self)]> ∅)) in
  match timestamp self with
  | Some ts =>
      x ← Datetime.timestamp ts;
      t ← PyNum.int_of_float x;
      mret (<[FIELD_TIMESTAMP := RInt t]> d)
  | None => mret d
  end.

Definition from_redis_dict (data : gmap string redis_value)
  : result MovingAverageCrossOverDetectorState :=
  let ts := data !! FIELD_TIMESTAMP in
  timestamp ←
    match ts with
    | None => mret None
    | Some v => t ← py_int v; d ← Datetime.fromtimestamp t; mret (Some d)
    end;
  count ← getitem data FIELD_COUNT ≫= py_int;
  moving_avg_short ← getitem data FIELD_MOVING_AVG_SHORT ≫= py_float;
  moving_avg_long ← getitem data FIELD_MOVING_AVG_LONG ≫= py_float;
  mret {| timestamp := timestamp;
          count := count;
          moving_avg_short := moving_avg_short;
          moving_avg_long := moving_avg_long |}.

(** [moving_avg_short=0, moving_avg_long=0]: the int [0] in a float
    field, which compares and computes as [0.0]. *)
Definition empty : MovingAverageCrossOverDetectorState :=
  {| timestamp := None;
     count := 0;
     moving_avg_short := 0%float;
     moving_avg_long := 0%float |}.

(** [from_redis_dict(state.to_redis_dict())] *)
Definition roundtrip (self : MovingAverageCrossOverDetectorState)
  : result MovingAverageCrossOverDetectorState :=
  to_redis_dict self ≫= from_redis_dict.


(** The timestamp, if there is one, satisfies [P]. *)
Definition timestamp_is (P : datetime -> Prop)
    (self : MovingAverageCrossOverDetectorState) : Prop :=
  match timestamp self with
  | Some d => P d
  | None => True
  end.

(** A field that [from_redis_dict] reads with [data[key]] and coerces
    with [coerce] is malformed when it is missing or the coercion
    raises. *)
Definition field_malformed {A : Type} (coerce : redis_value -> result A)
    (data : gmap string redis_value) (key : string) : Prop :=
  match data !! key with
  | Some v => raises (coerce v)
  | None => True
  end.

(** The count or one of the two averages is missing or not a number. *)
Definition numeric_fields_malformed (data : gmap string redis_value) : Prop :=
  field_malformed py_int data FIELD_COUNT
  \/ field_malformed py_float data FIELD_MOVING_AVG_SHORT
  \/ field_malformed py_float data FIELD_MOVING_AVG_LONG.

(** The timestamp is there and is not an int in the range of
    [datetime]. *)
Definition timestamp_malformed (data : gmap string redis_value) : Prop :=
  match data !! FIELD_TIMESTAMP with
  | Some v => raises (py_int v ≫= Datetime.fromtimestamp)
  | None => False
  end.

End State.

(** ** What the detector is given

    [sentry.utils.math.MovingAverage] and
    [sentry.statistical_detectors.detector] are not part of the sources
    at hand. The moving average is the interface the detector calls:
    [value], [set(value, n)] and [update(x)], on a carrier [A] that
    holds the object's fields. Of the payload only the two fields the
    algorithm reads are kept. *)

Class MovingAverage (A : Type) : Type := {
  ma_value : A -> float;
  ma_set : float -> Z -> A -> A;
  ma_update : float -> A -> A;
}.

Inductive TrendType : Type := Regressed | Improved | Unchanged.

Module Payload.

Record DetectorPayload : Type := {
  timestamp : datetime;
  value : float;
}.

End Payload.

Record MovingAverageCrossOverDetectorConfig (S L : Type) : Type := {
  min_data_points : Z;
  short_moving_avg_factory : unit -> S;
  long_moving_avg_factory : unit -> L;
}.

Arguments min_data_points {S L} _.
Arguments short_moving_avg_factory {S L} _ _.
Arguments long_moving_avg_factory {S L} _ _.

(** ** The detector *)

Module Detector.

Section Detector.

Context {S L : Type} {HS : MovingAverage S} {HL : MovingAverage L}.

(** The fields of [self]. *)
Record MovingAverageCrossOverDetector : Type := {
  moving_avg_short : S;
  moving_avg_long : L;
  timestamp : option datetime;
  count : Z;
  config : MovingAverageCrossOverDetectorConfig S L;
}.

(** [__init__] *)
Definition init (state : State.MovingAverageCrossOverDetectorState)
    (config : MovingAverageCrossOverDetectorConfig S L)
  : MovingAverageCrossOverDetector :=
  {| moving_avg_short :=
       ma_set (State.moving_avg_short state) (State.count state)
         (short_moving_avg_factory config ());
     moving_avg_long :=
       ma_set (State.moving_avg_long state) (State.count state)
         (long_moving_avg_factory config ());
     timestamp := State.timestamp state;
     count := State.count state;
     config := config |}.

(** [self.timestamp is not None and self.timestamp > payload.timestamp] *)
Definition out_of_order (self : MovingAverageCrossOverDetector)
    (payload : Payload.DetectorPayload) : bool :=
  match timestamp self with
  | Some t => Payload.timestamp payload <? t
  | None => false
  end.

(** [update]: the detector after the call and the value returned.
    The warning logged on an out-of-order payload is no part of
    either. *)
Definition update (self : MovingAverageCrossOverDetector)
    (payload : Payload.DetectorPayload)
  : MovingAverageCrossOverDetector * option TrendType :=
  if out_of_order self payload then (self, None)
  else
    let old_moving_avg_short := ma_value (moving_avg_short self) in
    let old_moving_avg_long := ma_value (moving_avg_long self) in
    let self' :=
      {| moving_avg_short :=
           ma_update (Payload.value payload) (moving_avg_short self);
         moving_avg_long :=
           ma_update (Payload.value payload) (moving_avg_long self);
         timestamp := Some (Payload.timestamp payload);
         count := count self + 1;
         config := config self |} in
    let stablized := min_data_points (config self') <? count self' in
    if stablized
       && (ma_value (moving_avg_long self') <? ma_value (moving_avg_short self'))%float
       && (old_moving_avg_short <=? old_moving_avg_long)%float
    then (self', Some Regressed)
    else if stablized
       && (ma_value (moving_avg_short self') <? ma_value (moving_avg_long self'))%float
       && (old_moving_avg_long <=? old_moving_avg_short)%float
    then (self', Some Improved)
    else (self', Some Unchanged).

(** The [state] property. *)
Definition state (self : MovingAverageCrossOverDetector)
  : State.MovingAverageCrossOverDetectorState :=
  {| State.timestamp := timestamp self;
     State.count := count self;
     State.moving_avg_short := ma_value (moving_avg_short self);
     State.moving_avg_long := ma_value (moving_avg_short self) |}.

(** Feeding payloads one after the other: the detector at the end
    and what each call returned. *)
Fixpoint run (self : MovingAverageCrossOverDetector)
    (payloads : list Payload.DetectorPayload)
  : MovingAverageCrossOverDetector * list (option TrendType) :=
  match payloads with
  | [] => (self, [])
  | p :: ps =>
      let '(self', r) := update self p in
      let '(self'', rs) := run self' ps in
      (self'', r :: rs)
  end.

(** How many calls of a run were accepted (returned a trend). *)
Fixpoint accepted (outcomes : list (option TrendType)) : Z :=
  match outcomes with
  | [] => 0
  | Some _ :: rest => 1 + accepted rest
  | None :: rest => accepted rest
  end.

End Detector.

Arguments MovingAverageCrossOverDetector S L : clear implicits.

End Detector.

(** ** The averages of the specification's scenarios *)

Module Averages.

(** Modelled from the spec: [sentry.utils.math] is missing; the short
    average of the cross-over scenario is the "simple average of last 1
    sample (i.e., tracks latest value)". *)
Record LatestValue : Type := { latest : float }.

#[global] Instance latest_value_average : MovingAverage LatestValue := {|
  ma_value a := latest a;
  ma_set v _ _ := {| latest := v |};
  ma_update x _ := {| latest := x |};
|}.

(** Modelled from the spec: [sentry.utils.math] is missing; the long
    average of the cross-over scenario is the "cumulative mean", as in
    the spec's [(10+10+10+100)/4]: the mean of [n] samples, and the new
    sample folded in as [(mean * n + x) / (n + 1)]. *)
Record CumulativeMean : Type := { mean : float; samples : Z }.

#[global] Instance cumulative_mean_average : MovingAverage CumulativeMean := {|
  ma_value a := mean a;
  ma_set v n _ := {| mean := v; samples := n |};
  ma_update x a :=
    {| mean := (mean a * PyNum.float_of_Z (samples a) + x)
               / PyNum.float_of_Z (samples a + 1);
       samples := samples a + 1 |};
|}.

(** Modelled from the spec: [sentry.utils.math] is missing; an
    "exponential decay" average of weight one half, each sample folded
    in as [value + (x - value) / 2]. *)
Record HalfDecay : Type := { decayed : float }.

#[global] Instance half_decay_average : MovingAverage HalfDecay := {|
  ma_value a := decayed a;
  ma_set v _ _ := {| decayed := v |};
  ma_update x a := {| decayed := decayed a + (x - decayed a) / 2 |};
|}.

(** The configuration of the cross-over scenario. *)
Definition crossover_config (k : Z)
  : MovingAverageCrossOverDetectorConfig LatestValue CumulativeMean :=
  {| min_data_points := k;
     short_moving_avg_factory := fun _ => {| latest := 0 |};
     long_moving_avg_factory := fun _ => {| mean := 0; samples := 0 |} |}.

(** A payload of the scenarios: a value observed at an instant. *)
Definition sample (t : datetime) (x : float) : Payload.DetectorPayload :=
  {| Payload.timestamp := t; Payload.value := x |}.

Definition decay_config (k : Z)
  : MovingAverageCrossOverDetectorConfig LatestValue HalfDecay :=
  {| min_data_points := k;
     short_moving_avg_factory := fun _ => {| latest := 0 |};
     long_moving_avg_factory := fun _ => {| decayed := 0 |} |}.

(** A detector resumed from a persisted state: three samples seen,
    the last at instant 3, both averages at 10. *)
Definition resumed : Detector.MovingAverageCrossOverDetector LatestValue CumulativeMean :=
  Detector.init
    {| State.timestamp := Some 3; State.count := 3;
       State.moving_avg_short := 10; State.moving_avg_long := 10 |}
    (crossover_config 2).

(** [n] samples of value 0 at the instants [a], [a + 1], ... *)
Definition flat (a n : nat) : list Payload.DetectorPayload :=
  map (fun i => sample (Z.of_nat i) 0) (seq a n).

(** [n] samples of value 0 and then one of value 1, at increasing
    instants. *)
Definition flat_then_step (n : nat) : list Payload.DetectorPayload :=
  flat 0 n ++ [sample (Z.of_nat n) 1].

(** The values of the cross-over scenario at the given instants. *)
Definition crossover_samples (t1 t2 t3 t4 t5 : datetime)
  : list Payload.DetectorPayload :=
  [sample t1 10; sample t2 10; sample t3 10; sample t4 100; sample t5 100].

End Averages.

(** * Properties *)

(** ** Checks of the number model

    The rounding of [PyNum] against the division of the kernel's floats
    and of the Standard Library's [SFdiv], and the parsers against what
    Python accepts. *)

Example truediv_one_third : PyNum.truediv 1 3 = Ok (1 / 3)%float.
Proof. vm_compute. reflexivity. Qed.

Example truediv_microseconds :
  PyNum.truediv 1672531200999999 1000000
  = Ok (1672531200999999 / 1000000)%float.
Proof. vm_compute. reflexivity. Qed.

Example truediv_year_3000 :
  PyNum.truediv 32503680000999999 1000000 = Ok 32503680001%float.
Proof. vm_compute. reflexivity. Qed.

Example truediv_negative : PyNum.truediv (-7) 3 = Ok (-7 / 3)%float.
Proof. vm_compute. reflexivity. Qed.

Example truediv_underflow : PyNum.truediv 1 (10 ^ 400) = Ok 0%float.
Proof. vm_compute. reflexivity. Qed.

Example truediv_subnormal :
  PyNum.truediv 1 (10 ^ 320) = Ok 0x0.00000000007e8p-1022%float.
Proof. vm_compute. reflexivity. Qed.

Example ratio_agrees_with_SFdiv :
  PyNum.SF_of_Zratio 12345678901234567890123 7
  = SFdiv prec emax (S754_finite false 12345678901234567890123 0)
      (S754_finite false 7 0)
  /\ PyNum.SF_of_Zratio 3 (10 ^ 30)
     = SFdiv prec emax (S754_finite false 3 0)
         (S754_finite false (Z.to_pos (10 ^ 30)) 0)
  /\ PyNum.SF_of_Zratio (2 ^ 54 + 2) 1
     = SFdiv prec emax (S754_finite false (Z.to_pos (2 ^ 54 + 2)) 0)
         (S754_finite false 1 0)
  /\ PyNum.SF_of_Zratio (2 ^ 54 + 6) 1
     = SFdiv prec emax (S754_finite false (Z.to_pos (2 ^ 54 + 6)) 0)
         (S754_finite false 1 0).
Proof. vm_compute. repeat split. Qed.

Example float_of_int_ties_to_even :
  PyNum.float_of_int (2 ^ 53 + 1) = Ok 9007199254740992%float
  /\ PyNum.float_of_int (2 ^ 53 + 3) = Ok 9007199254740996%float.
Proof. vm_compute. split; reflexivity. Qed.

Example float_of_int_overflow : PyNum.float_of_int (10 ^ 400) = Raise OverflowError.
Proof. vm_compute. reflexivity. Qed.

Example int_of_float_toward_zero :
  PyNum.int_of_float (-2.5)%float = Ok (-2)
  /\ PyNum.int_of_float 2.5%float = Ok 2
  /\ PyNum.int_of_float (-0)%float = Ok 0
  /\ PyNum.int_of_float 9007199254740992%float = Ok (2 ^ 53).
Proof. vm_compute. repeat split. Qed.

Example int_of_float_not_finite :
  PyNum.int_of_float nan = Raise ValueError
  /\ PyNum.int_of_float infinity = Raise OverflowError.
Proof. vm_compute. split; reflexivity. Qed.

Example parse_float_accepts :
  PyText.parse_float "1.5" = Ok 1.5%float
  /\ PyText.parse_float "0.1" = Ok (1 / 10)%float
  /\ PyText.parse_float " 1_000.000_1e1_0 " = Ok 10000001000000%float
  /\ PyText.parse_float "+.5e-1" = Ok (5 / 100)%float
  /\ PyText.parse_float "5." = Ok 5%float
  /\ PyText.parse_float "-0" = Ok (-0)%float
  /\ PyText.parse_float "-InFiNiTy" = Ok neg_infinity
  /\ PyText.parse_float "1.5e400" = Ok infinity
  /\ PyText.parse_float "1e-400" = Ok 0%float
  /\ PyText.parse_float "2.2250738585072011e-308"
     = Ok 0x0.fffffffffffffp-1022%float.
Proof. vm_compute. repeat split. Qed.

Example parse_float_refuses :
  PyText.parse_float "1e" = Raise ValueError
  /\ PyText.parse_float "1._5" = Raise ValueError
  /\ PyText.parse_float "." = Raise ValueError
  /\ PyText.parse_float "nan_" = Raise ValueError
  /\ PyText.parse_float "" = Raise ValueError.
Proof. vm_compute. repeat split. Qed.

Example parse_int_accepts :
  PyText.parse_int " +00_7 " = Ok 7 /\ PyText.parse_int "-12" = Ok (-12).
Proof. vm_compute. split; reflexivity. Qed.

Example parse_int_digit_limit :
  PyText.parse_int (string_of_list_ascii (repeat "1"%char 4300))
  = Ok ((10 ^ 4300 - 1) / 9)
  /\ PyText.parse_int (string_of_list_ascii (repeat "1"%char 4301))
     = Raise ValueError
  /\ PyText.parse_int (string_of_list_ascii (repeat "0"%char 4301))
     = Raise ValueError.
Proof. vm_compute. repeat split. Qed.

Example parse_int_refuses :
  PyText.parse_int "5.0" = Raise ValueError
  /\ PyText.parse_int "- 5" = Raise ValueError
  /\ PyText.parse_int "1__0" = Raise ValueError
  /\ PyText.parse_int "" = Raise ValueError.
Proof. vm_compute. repeat split. Qed.

Example int_float_of_str_spaces :
  py_int (RStr (String (ascii_of_N 160) "5")) = Ok 5
  /\ py_int (RStr (String (ascii_of_N 133) "5 ")) = Ok 5
  /\ py_int (RBytes (String (ascii_of_N 160) "5")) = Raise ValueError
  /\ py_float (RStr (String (ascii_of_N 160) "1.5")) = Ok 1.5%float
  /\ py_float (RBytes (String (ascii_of_N 160) "1.5")) = Raise ValueError
  /\ py_int (RStr (String (ascii_of_N 28) "5")) = Raise ValueError.
Proof. vm_compute. repeat split. Qed.

Example fromtimestamp_refuses :
  Datetime.fromtimestamp 253402300800 = Raise ValueError
  /\ Datetime.fromtimestamp (-62135596801) = Raise ValueError
  /\ Datetime.fromtimestamp 67768036191676799 = Raise ValueError
  /\ Datetime.fromtimestamp 67768036191676800 = Raise OSError
  /\ Datetime.fromtimestamp (-67768040609740800) = Raise ValueError
  /\ Datetime.fromtimestamp (-67768040609740801) = Raise OSError
  /\ Datetime.fromtimestamp (10 ^ 17) = Raise OSError
  /\ Datetime.fromtimestamp (2 ^ 63 - 1) = Raise OSError
  /\ Datetime.fromtimestamp (- 2 ^ 63) = Raise OSError
  /\ Datetime.fromtimestamp (2 ^ 63) = Raise OverflowError
  /\ Datetime.fromtimestamp (- 2 ^ 63 - 1) = Raise OverflowError.
Proof. vm_compute. repeat split. Qed.

Example from_redis_dict_far_timestamp :
  State.from_redis_dict
    {[ "T" := RStr "100000000000000000"; "C" := RStr "5"; "S" := RStr "1.5";
       "L" := RStr "2.0" ]}
  = Raise OSError.
Proof. vm_compute. reflexivity. Qed.

(** ** Comparison of floats *)

Lemma SFcompare_antisym (x y : spec_float) :
  SFcompare y x = option_map CompOpp (SFcompare x y).
Proof.
  destruct x as [sx|sx| |sx mx ex], y as [sy|sy| |sy my ey]; simpl;
    repeat match goal with s : bool |- _ => destruct s end; simpl;
    try reflexivity.
  all: rewrite (Z.compare_antisym ex ey);
    destruct (ex ?= ey); simpl; try reflexivity;
    pose proof (Pos.compare_cont_antisym mx my Eq) as E; simpl in E;
    rewrite <- E; reflexivity.
Qed.

Lemma float_ltb_asym (a b : float) :
  (a <? b)%float = true -> (b <? a)%float = false.
Proof.
  rewrite !FloatAxioms.ltb_spec. unfold SFltb.
  rewrite (SFcompare_antisym (Prim2SF a) (Prim2SF b)).
  destruct (SFcompare (Prim2SF a) (Prim2SF b)) as [[]|]; simpl; congruence.
Qed.

Lemma float_eqb_not_ltb (a b : float) :
  (a =? b)%float = true -> (a <? b)%float = false /\ (b <? a)%float = false.
Proof.
  rewrite FloatAxioms.eqb_spec, !FloatAxioms.ltb_spec. unfold SFeqb, SFltb.
  rewrite (SFcompare_antisym (Prim2SF a) (Prim2SF b)).
  destruct (SFcompare (Prim2SF a) (Prim2SF b)) as [[]|]; simpl;
    intuition congruence.
Qed.

(** ** The detector *)

Section DetectorProperties.

Context {S L : Type} {HS : MovingAverage S} {HL : MovingAverage L}.

Implicit Types (self : Detector.MovingAverageCrossOverDetector S L)
  (payload : Payload.DetectorPayload).

Lemma update_out_of_order self payload :
  Detector.out_of_order self payload = true ->
  Detector.update self payload = (self, None).
Proof. intros Hoo. unfold Detector.update. now rewrite Hoo. Qed.

(** What an accepted call does to the fields. *)
Lemma update_accepted_fields self payload :
  Detector.out_of_order self payload = false ->
  let self' := fst (Detector.update self payload) in
  Detector.moving_avg_short self'
    = ma_update (Payload.value payload) (Detector.moving_avg_short self)
  /\ Detector.moving_avg_long self'
    = ma_update (Payload.value payload) (Detector.moving_avg_long self)
  /\ Detector.timestamp self' = Some (Payload.timestamp payload)
  /\ Detector.count self' = Detector.count self + 1
  /\ Detector.config self' = Detector.config self.
Proof.
  intros Hoo. unfold Detector.update. rewrite Hoo. cbv zeta.
  repeat match goal with |- context [if ?b then _ else _] => destruct b end;
    simpl; auto.
Qed.

Lemma update_accepted_returns self payload :
  Detector.out_of_order self payload = false ->
  exists t, snd (Detector.update self payload) = Some t.
Proof.
  intros Hoo. unfold Detector.update. rewrite Hoo. cbv zeta.
  repeat match goal with |- context [if ?b then _ else _] => destruct b end;
    simpl; eauto.
Qed.

Lemma update_rejected_iff self payload :
  snd (Detector.update self payload) = None
  <-> Detector.out_of_order self payload = true.
Proof.
  split.
  - destruct (Detector.out_of_order self payload) eqn:Hoo; [done|].
    destruct (update_accepted_returns self payload Hoo) as [t Ht].
    congruence.
  - intros Hoo. now rewrite update_out_of_order.
Qed.

(** Before the detector has more than [min_data_points] samples an
    accepted call returns [Unchanged]. *)
Lemma update_not_stabilized self payload :
  Detector.out_of_order self payload = false ->
  Detector.count self + 1 <= min_data_points (Detector.config self) ->
  snd (Detector.update self payload) = Some Unchanged.
Proof.
  intros Hoo Hk. unfold Detector.update. rewrite Hoo. cbv zeta. simpl.
  destruct (Z.ltb_spec (min_data_points (Detector.config self))
              (Detector.count self + 1)); [lia|]. reflexivity.
Qed.

Lemma update_count self payload :
  Detector.count (fst (Detector.update self payload))
  = Detector.count self
    + Detector.accepted [snd (Detector.update self payload)].
Proof.
  destruct (Detector.out_of_order self payload) eqn:Hoo.
  - rewrite update_out_of_order by done. simpl. lia.
  - destruct (update_accepted_returns self payload Hoo) as [t Ht].
    destruct (update_accepted_fields self payload Hoo) as (_ & _ & _ & Hc & _).
    rewrite Ht, Hc. simpl. lia.
Qed.

Lemma update_config self payload :
  Detector.config (fst (Detector.update self payload)) = Detector.config self.
Proof.
  destruct (Detector.out_of_order self payload) eqn:Hoo.
  - now rewrite update_out_of_order.
  - now destruct (update_accepted_fields self payload Hoo) as (_ & _ & _ & _ & Hc).
Qed.

Lemma accepted_app (xs ys : list (option TrendType)) :
  Detector.accepted (xs ++ ys) = Detector.accepted xs + Detector.accepted ys.
Proof. induction xs as [|[t|] xs IH]; simpl; lia. Qed.

Lemma accepted_cons (x : option TrendType) (xs : list (option TrendType)) :
  Detector.accepted (x :: xs) = Detector.accepted [x] + Detector.accepted xs.
Proof. apply (accepted_app [x] xs). Qed.

Lemma accepted_nonneg (xs : list (option TrendType)) :
  0 <= Detector.accepted xs.
Proof. induction xs as [|[t|] xs IH]; simpl; lia. Qed.

Lemma run_cons self payload payloads :
  Detector.run self (payload :: payloads)
  = (fst (Detector.run (fst (Detector.update self payload)) payloads),
     snd (Detector.update self payload)
     :: snd (Detector.run (fst (Detector.update self payload)) payloads)).
Proof.
  cbn [Detector.run]. destruct (Detector.update self payload) as [self' r].
  cbn [fst snd]. now destruct (Detector.run self' payloads).
Qed.

Lemma run_app self ps1 ps2 :
  Detector.run self (ps1 ++ ps2)
  = (fst (Detector.run (fst (Detector.run self ps1)) ps2),
     snd (Detector.run self ps1)
     ++ snd (Detector.run (fst (Detector.run self ps1)) ps2)).
Proof.
  revert self. induction ps1 as [|p ps1 IH]; intros self.
  - simpl. now destruct (Detector.run self ps2).
  - rewrite <- app_comm_cons, !run_cons, IH. reflexivity.
Qed.

Lemma run_count self payloads :
  Detector.count (fst (Detector.run self payloads))
  = Detector.count self + Detector.accepted (snd (Detector.run self payloads)).
Proof.
  revert self. induction payloads as [|p ps IH]; intros self.
  - simpl. lia.
  - rewrite run_cons. cbn [fst snd].
    rewrite (accepted_cons _ (snd (Detector.run _ ps))), IH, update_count.
    lia.
Qed.

Lemma run_config self payloads :
  Detector.config (fst (Detector.run self payloads)) = Detector.config self.
Proof.
  revert self. induction payloads as [|p ps IH]; intros self; [done|].
  rewrite run_cons. cbn [fst]. now rewrite IH, update_config.
Qed.

(** The timestamp is set by the first accepted call and stays set. *)
Lemma run_timestamp self payloads :
  Detector.timestamp (fst (Detector.run self payloads)) = None
  <-> Detector.timestamp self = None
      /\ Detector.accepted (snd (Detector.run self payloads)) = 0.
Proof.
  revert self. induction payloads as [|p ps IH]; intros self.
  - simpl. intuition.
  - rewrite run_cons. cbn [fst snd]. rewrite IH.
    pose proof (accepted_nonneg (snd (Detector.run (fst (Detector.update self p)) ps))).
    destruct (Detector.out_of_order self p) eqn:Hoo.
    + rewrite update_out_of_order by done. simpl. reflexivity.
    + destruct (update_accepted_returns self p Hoo) as [t Ht].
      destruct (update_accepted_fields self p Hoo) as (_ & _ & Hts & _).
      rewrite Ht, Hts. simpl. split; [intros [? _]; done|].
      intros [_ ?]. lia.
Qed.

Lemma run_not_stabilized self payloads (i : nat) (trend : TrendType) :
  snd (Detector.run self payloads) !! i = Some (Some trend) ->
  Detector.count self
  + Detector.accepted (take (Datatypes.S i) (snd (Detector.run self payloads)))
  <= min_data_points (Detector.config self) ->
  trend = Unchanged.
Proof.
  revert self i. induction payloads as [|p ps IH]; intros self i; [done|].
  rewrite run_cons. cbn [snd]. destruct i as [|i]; simpl.
  - intros [= Hr]. rewrite Hr. simpl. intros Hk.
    assert (Hoo : Detector.out_of_order self p = false).
    { destruct (Detector.out_of_order self p) eqn:Hoo; [|done].
      rewrite update_out_of_order in Hr by done. done. }
    rewrite update_not_stabilized in Hr by (done || lia). congruence.
  - intros Hi Hk. eapply IH; [exact Hi|].
    rewrite update_config, update_count.
    destruct (snd (Detector.update self p)); simpl in *; lia.
Qed.

End DetectorProperties.

(** ** The claims about the detector *)

(** The [state] property as the code has it: it fills
    [moving_avg_long] from the short average. *)
Lemma state_moving_avg_long_reads_short {S L : Type}
    `{MovingAverage S} `{MovingAverage L}
    (self : Detector.MovingAverageCrossOverDetector S L) :
  State.moving_avg_long (Detector.state self)
  = ma_value (Detector.moving_avg_short self).
Proof. reflexivity. Qed.

(** C1 asks that [state.moving_avg_long] be the long average's own
    value. It is not: a detector resumed from a state with short average
    1.0 and long average 2.0 reports [moving_avg_long = 1.0], which
    differs from the long average's value 2.0, while timestamp, count and
    [moving_avg_short] are reported as they are. *)
Theorem state_moving_avg_long_diverges :
  let self :=
    Detector.init
      {| State.timestamp := Some 1700000000000000; State.count := 5;
         State.moving_avg_short := 1; State.moving_avg_long := 2 |}
      (Averages.crossover_config 2) in
  ma_value (Detector.moving_avg_long self) = 2%float
  /\ State.moving_avg_long (Detector.state self) = 1%float
  /\ (State.moving_avg_long (Detector.state self)
      =? ma_value (Detector.moving_avg_long self))%float = false
  /\ State.timestamp (Detector.state self) = Detector.timestamp self
  /\ State.count (Detector.state self) = Detector.count self
  /\ State.moving_avg_short (Detector.state self)
     = ma_value (Detector.moving_avg_short self).
Proof. vm_compute. repeat split. Qed.

(** C2: once stabilized, an accepted [update] returns [Regressed]
    exactly when the new short average is above the new long one and the
    old short average was at most the old long one, [Improved] exactly
    when the new short average is below the new long one and the old
    short average was at least the old long one, and [Unchanged]
    otherwise; equal averages before and after give [Unchanged]. *)
Theorem update_stabilized_crossover {S L : Type}
    `{MovingAverage S} `{MovingAverage L}
    (self : Detector.MovingAverageCrossOverDetector S L)
    (payload : Payload.DetectorPayload) :
  Detector.out_of_order self payload = false ->
  min_data_points (Detector.config self) < Detector.count self + 1 ->
  let old_short := ma_value (Detector.moving_avg_short self) in
  let old_long := ma_value (Detector.moving_avg_long self) in
  let self' := fst (Detector.update self payload) in
  let new_short := ma_value (Detector.moving_avg_short self') in
  let new_long := ma_value (Detector.moving_avg_long self') in
  let trend := snd (Detector.update self payload) in
  Detector.count self' = Detector.count self + 1
  /\ (trend = Some Regressed
      <-> (new_long <? new_short)%float = true
          /\ (old_short <=? old_long)%float = true)
  /\ (trend = Some Improved
      <-> (new_short <? new_long)%float = true
          /\ (old_long <=? old_short)%float = true)
  /\ (trend = Some Unchanged
      <-> ~ ((new_long <? new_short)%float = true
             /\ (old_short <=? old_long)%float = true)
          /\ ~ ((new_short <? new_long)%float = true
                /\ (old_long <=? old_short)%float = true))
  /\ ((new_short =? new_long)%float = true ->
      (old_short =? old_long)%float = true ->
      trend = Some Unchanged).
Proof.
  intros Hoo Hk. cbv zeta.
  destruct (update_accepted_fields self payload Hoo) as (Hs & Hl & _ & Hc & _).
  rewrite Hs, Hl. split; [exact Hc|].
  unfold Detector.update. rewrite Hoo. cbv zeta. cbn [Detector.count Detector.config
    Detector.moving_avg_short Detector.moving_avg_long].
  destruct (Z.ltb_spec (min_data_points (Detector.config self))
              (Detector.count self + 1)) as [_|]; [|lia].
  cbn [andb].
  set (os := ma_value (Detector.moving_avg_short self)).
  set (ol := ma_value (Detector.moving_avg_long self)).
  set (ns := ma_value (ma_update (Payload.value payload) (Detector.moving_avg_short self))).
  set (nl := ma_value (ma_update (Payload.value payload) (Detector.moving_avg_long self))).
  pose proof (float_ltb_asym ns nl) as Hasym1.
  pose proof (float_ltb_asym nl ns) as Hasym2.
  pose proof (float_eqb_not_ltb ns nl) as Heq.
  destruct (nl <? ns)%float, (ns <? nl)%float, (os <=? ol)%float,
    (ol <=? os)%float; cbn [andb fst snd];
    intuition congruence.
Qed.

(** The witness of C2: the resumed detector, fed the value 100 at
    instant 4, is stabilized (count 4 above 2) and reports [Regressed]. *)
Lemma update_stabilized_crossover_witness :
  Detector.out_of_order Averages.resumed (Averages.sample 4 100) = false
  /\ min_data_points (Detector.config Averages.resumed)
     < Detector.count Averages.resumed + 1
  /\ snd (Detector.update Averages.resumed (Averages.sample 4 100))
     = Some Regressed.
Proof.
  assert (Hoo : Detector.out_of_order Averages.resumed (Averages.sample 4 100)
                = false) by reflexivity.
  assert (Hk : min_data_points (Detector.config Averages.resumed)
               < Detector.count Averages.resumed + 1) by reflexivity.
  split; [exact Hoo|]. split; [exact Hk|].
  destruct (update_stabilized_crossover Averages.resumed
              (Averages.sample 4 100) Hoo Hk) as (_ & Hreg & _).
  apply Hreg. vm_compute. split; reflexivity.
Defined.

(** C5: a payload earlier than the detector's timestamp is rejected:
    [update] returns [None] and the detector, hence its [state], is what
    it was. *)
Theorem update_earlier_payload_rejected {S L : Type}
    `{MovingAverage S} `{MovingAverage L}
    (self : Detector.MovingAverageCrossOverDetector S L)
    (payload : Payload.DetectorPayload) (t0 : datetime) :
  Detector.timestamp self = Some t0 ->
  Payload.timestamp payload < t0 ->
  snd (Detector.update self payload) = None
  /\ fst (Detector.update self payload) = self
  /\ Detector.state (fst (Detector.update self payload)) = Detector.state self.
Proof.
  intros Ht Hlt.
  assert (Hoo : Detector.out_of_order self payload = true).
  { unfold Detector.out_of_order. rewrite Ht. apply Z.ltb_lt, Hlt. }
  rewrite (update_out_of_order self payload Hoo). auto.
Qed.

(** The witness of C5: the resumed detector (last instant 3) is fed a
    payload of instant 2. *)
Lemma update_earlier_payload_rejected_witness :
  snd (Detector.update Averages.resumed (Averages.sample 2 100)) = None
  /\ fst (Detector.update Averages.resumed (Averages.sample 2 100))
     = Averages.resumed
  /\ Detector.state
       (fst (Detector.update Averages.resumed (Averages.sample 2 100)))
     = Detector.state Averages.resumed.
Proof.
  apply (update_earlier_payload_rejected Averages.resumed
           (Averages.sample 2 100) 3); reflexivity.
Defined.

(** C9: a payload at exactly the detector's timestamp is accepted: it is
    folded into both averages, the count goes up by one and a trend is
    returned. *)
Theorem update_same_timestamp_accepted {S L : Type}
    `{MovingAverage S} `{MovingAverage L}
    (self : Detector.MovingAverageCrossOverDetector S L)
    (payload : Payload.DetectorPayload) (t0 : datetime) :
  Detector.timestamp self = Some t0 ->
  Payload.timestamp payload = t0 ->
  let self' := fst (Detector.update self payload) in
  (exists trend, snd (Detector.update self payload) = Some trend)
  /\ Detector.moving_avg_short self'
     = ma_update (Payload.value payload) (Detector.moving_avg_short self)
  /\ Detector.moving_avg_long self'
     = ma_update (Payload.value payload) (Detector.moving_avg_long self)
  /\ Detector.count self' = Detector.count self + 1
  /\ Detector.timestamp self' = Some t0.
Proof.
  intros Ht Hp.
  assert (Hoo : Detector.out_of_order self payload = false).
  { unfold Detector.out_of_order. rewrite Ht. apply Z.ltb_ge. lia. }
  destruct (update_accepted_fields self payload Hoo) as (Hs & Hl & Hts & Hc & _).
  cbv zeta. rewrite Hs, Hl, Hts, Hc, Hp.
  split; [apply update_accepted_returns, Hoo|auto].
Qed.


(** The witness of C9: the resumed detector (last instant 3) is fed a
    payload of instant 3. *)
Lemma update_same_timestamp_accepted_witness :
  exists trend,
    snd (Detector.update Averages.resumed (Averages.sample 3 100)) = Some trend.
Proof.
  apply (update_same_timestamp_accepted Averages.resumed
           (Averages.sample 3 100) 3); reflexivity.
Defined.

(** One call of a run on concrete averages: the call is unfolded, the
    comparison of the two instants decided by [tac], and the arithmetic
    evaluated. *)
Ltac run_step tac :=
  rewrite run_cons;
  match goal with
  | |- context [Detector.update ?d ?p] =>
      let U := fresh "U" in
      eassert (U : Detector.update d p = _);
      [ unfold Detector.update, Detector.out_of_order;
        cbn [Detector.timestamp Payload.timestamp Averages.sample];
        tac; vm_compute; reflexivity
      | rewrite U; clear U; cbn [fst snd] ]
  end.

(** C3: the cross-over scenario. With [min_data_points = 2], a short
    average that is the latest sample and a long average that is the
    cumulative mean, the values 10, 10, 10, 100, 100 at increasing
    instants make the fourth call return [Regressed] and every other
    call [Unchanged]. *)
Theorem crossover_scenario (t1 t2 t3 t4 t5 : datetime) :
  t1 < t2 -> t2 < t3 -> t3 < t4 -> t4 < t5 ->
  snd (Detector.run (Detector.init State.empty (Averages.crossover_config 2))
         (Averages.crossover_samples t1 t2 t3 t4 t5))
  = [Some Unchanged; Some Unchanged; Some Unchanged; Some Regressed;
     Some Unchanged].
Proof.
  intros H12 H23 H34 H45.
  assert (E1 : (t2 <? t1) = false) by (apply Z.ltb_ge; lia).
  assert (E2 : (t3 <? t2) = false) by (apply Z.ltb_ge; lia).
  assert (E3 : (t4 <? t3) = false) by (apply Z.ltb_ge; lia).
  assert (E4 : (t5 <? t4) = false) by (apply Z.ltb_ge; lia).
  unfold Averages.crossover_samples.
  run_step idtac.
  run_step ltac:(rewrite E1).
  run_step ltac:(rewrite E2).
  run_step ltac:(rewrite E3).
  run_step ltac:(rewrite E4).
  reflexivity.
Qed.

(** The witness of C3: the instants 1 to 5. *)
Lemma crossover_scenario_witness :
  snd (Detector.run (Detector.init State.empty (Averages.crossover_config 2))
         (Averages.crossover_samples 1 2 3 4 5))
  = [Some Unchanged; Some Unchanged; Some Unchanged; Some Regressed;
     Some Unchanged].
Proof. apply (crossover_scenario 1 2 3 4 5); lia. Defined.

(** Flat samples leave the averages of the decay scenario where they
    are, and none of the calls signals. *)
Lemma decay_flat_run (k : Z) (n a : nat) (ts : option datetime) (c : Z) :
  match ts with Some t => t <= Z.of_nat a | None => True end ->
  Detector.run
    {| Detector.moving_avg_short := {| Averages.latest := 0 |};
       Detector.moving_avg_long := {| Averages.decayed := 0 |};
       Detector.timestamp := ts;
       Detector.count := c;
       Detector.config := Averages.decay_config k |}
    (Averages.flat a n)
  = ({| Detector.moving_avg_short := {| Averages.latest := 0 |};
        Detector.moving_avg_long := {| Averages.decayed := 0 |};
        Detector.timestamp :=
          match n with
          | O => ts
          | Datatypes.S m => Some (Z.of_nat (a + m))
          end;
        Detector.count := c + Z.of_nat n;
        Detector.config := Averages.decay_config k |},
     replicate n (Some Unchanged)).
Proof.
  revert a ts c. induction n as [|n IH]; intros a ts c Hts.
  - simpl. now rewrite Z.add_0_r.
  - unfold Averages.flat. cbn [seq map]. rewrite run_cons.
    fold (Averages.flat (Datatypes.S a) n).
    assert (Hup :
      Detector.update
        {| Detector.moving_avg_short := {| Averages.latest := 0 |};
           Detector.moving_avg_long := {| Averages.decayed := 0 |};
           Detector.timestamp := ts;
           Detector.count := c;
           Detector.config := Averages.decay_config k |}
        (Averages.sample (Z.of_nat a) 0)
      = ({| Detector.moving_avg_short := {| Averages.latest := 0 |};
            Detector.moving_avg_long := {| Averages.decayed := 0 |};
            Detector.timestamp := Some (Z.of_nat a);
            Detector.count := c + 1;
            Detector.config := Averages.decay_config k |},
         Some Unchanged)).
    { unfold Detector.update, Detector.out_of_order.
      cbn [Detector.timestamp Averages.sample Payload.timestamp].
      replace (match ts with Some t => Z.of_nat a <? t | None => false end)
        with false by (destruct ts; [symmetry; apply Z.ltb_ge; lia|done]).
      cbv zeta. cbn -[Z.ltb Z.add]. rewrite !andb_false_r. reflexivity. }
    rewrite Hup. cbn [fst snd]. rewrite IH by (simpl; lia).
    replace (c + 1 + Z.of_nat n) with (c + Z.of_nat (Datatypes.S n)) by lia.
    destruct n as [|m]; cbn [fst snd]; [now rewrite Nat.add_0_r|].
    now replace (Datatypes.S a + m)%nat with (a + Datatypes.S m)%nat by lia.
Qed.

(** C4: with [min_data_points = n], from the empty state, an accepted
    call that leaves the count at [n] or less returns [Unchanged]
    whatever the averages do, so no accepted call among the first [n]
    signals; the accepted call number [n + 1] can: after [n] flat
    samples, a step up is reported as [Regressed]. *)
Theorem stabilization_boundary (n : nat) :
  (forall (S L : Type) (HS : MovingAverage S) (HL : MovingAverage L)
      (config : MovingAverageCrossOverDetectorConfig S L)
      (payloads : list Payload.DetectorPayload)
      (payload : Payload.DetectorPayload) (trend : TrendType),
      min_data_points config = Z.of_nat n ->
      let before :=
        fst (Detector.run (Detector.init State.empty config) payloads) in
      snd (Detector.update before payload) = Some trend ->
      Detector.count (fst (Detector.update before payload)) <= Z.of_nat n ->
      trend = Unchanged)
  /\ (forall (S L : Type) (HS : MovingAverage S) (HL : MovingAverage L)
      (config : MovingAverageCrossOverDetectorConfig S L)
      (payloads : list Payload.DetectorPayload) (i : nat) (trend : TrendType),
      min_data_points config = Z.of_nat n ->
      let outcomes :=
        snd (Detector.run (Detector.init State.empty config) payloads) in
      outcomes !! i = Some (Some trend) ->
      Detector.accepted (take (Datatypes.S i) outcomes) <= Z.of_nat n ->
      trend = Unchanged)
  /\ snd (Detector.run
            (Detector.init State.empty (Averages.decay_config (Z.of_nat n)))
            (Averages.flat_then_step n))
     = replicate n (Some Unchanged) ++ [Some Regressed].
Proof.
  split; [|split].
  - intros S L HS HL config payloads payload trend Hk before Htrend Hcount.
    assert (Hoo : Detector.out_of_order before payload = false).
    { destruct (Detector.out_of_order before payload) eqn:Hoo; [|done].
      rewrite update_out_of_order in Htrend by done. done. }
    destruct (update_accepted_fields before payload Hoo) as (_ & _ & _ & Hc & _).
    rewrite update_not_stabilized in Htrend; [congruence|exact Hoo|].
    subst before. rewrite run_config. simpl. rewrite Hk.
    rewrite Hc in Hcount. exact Hcount.
  - intros S L HS HL config payloads i trend Hk outcomes Hi Hacc.
    subst outcomes. eapply (@run_not_stabilized S L HS HL); [exact Hi|].
    cbn [Detector.init Detector.count Detector.config State.count State.empty].
    lia.
  - unfold Averages.flat_then_step. rewrite run_app. cbn [snd].
    change (Detector.init State.empty (Averages.decay_config (Z.of_nat n)))
      with {| Detector.moving_avg_short := {| Averages.latest := 0 |};
              Detector.moving_avg_long := {| Averages.decayed := 0 |};
              Detector.timestamp := None;
              Detector.count := 0;
              Detector.config := Averages.decay_config (Z.of_nat n) |}.
    rewrite decay_flat_run by done. cbn [fst snd]. f_equal.
    rewrite run_cons. cbn [snd Detector.run]. f_equal.
    unfold Detector.update, Detector.out_of_order.
    cbn [Detector.timestamp Averages.sample Payload.timestamp].
    cbv zeta. cbn -[Z.ltb Z.add].
    replace (Z.of_nat n <? 0 + Z.of_nat n + 1) with true
      by (symmetry; apply Z.ltb_lt; lia).
    destruct n as [|m]; [reflexivity|].
    destruct (Z.ltb_spec (Z.of_nat (Datatypes.S m)) (Z.of_nat m));
      [lia|reflexivity].
Qed.

(** The witness of C4: [min_data_points = 2]; in the cross-over scenario
    the second call leaves the count at 2 and is the second accepted
    one, and the decay scenario signals at its third call. *)
Lemma stabilization_boundary_witness :
  let before :=
    fst (Detector.run (Detector.init State.empty (Averages.crossover_config 2))
           [Averages.sample 1 10]) in
  let outcomes :=
    snd (Detector.run (Detector.init State.empty (Averages.crossover_config 2))
           (Averages.crossover_samples 1 2 3 4 5)) in
  snd (Detector.update before (Averages.sample 2 10)) = Some Unchanged
  /\ Detector.count (fst (Detector.update before (Averages.sample 2 10))) <= 2
  /\ outcomes !! 1%nat = Some (Some Unchanged)
  /\ Detector.accepted (take 2 outcomes) <= 2
  /\ Unchanged = Unchanged
  /\ snd (Detector.run
            (Detector.init State.empty (Averages.decay_config 2))
            (Averages.flat_then_step 2))
     = [Some Unchanged; Some Unchanged; Some Regressed].
Proof.
  cbv zeta. split; [vm_compute; reflexivity|].
  split; [vm_compute; discriminate|].
  split; [vm_compute; reflexivity|].
  split; [vm_compute; discriminate|]. split.
  - apply (proj1 (stabilization_boundary 2) _ _ _ _
             (Averages.crossover_config 2) [Averages.sample 1 10]
             (Averages.sample 2 10) Unchanged);
      [reflexivity | vm_compute; reflexivity | vm_compute; discriminate].
  - apply (proj2 (proj2 (stabilization_boundary 2))).
Defined.

(** C8: from the empty state, whatever payloads are fed, the count is 0
    exactly when the timestamp is unset; the count is the initial count
    plus the number of accepted calls (rejected ones leave it alone),
    from any detector; and it never goes down as more payloads are fed. *)
Theorem count_invariant {S L : Type} `{MovingAverage S} `{MovingAverage L}
    (config : MovingAverageCrossOverDetectorConfig S L)
    (self : Detector.MovingAverageCrossOverDetector S L)
    (payloads more : list Payload.DetectorPayload) :
  let fresh := fst (Detector.run (Detector.init State.empty config) payloads) in
  (Detector.count fresh = 0 <-> Detector.timestamp fresh = None)
  /\ (State.count (Detector.state fresh) = 0
      <-> State.timestamp (Detector.state fresh) = None)
  /\ Detector.count (fst (Detector.run self payloads))
     = Detector.count self
       + Detector.accepted (snd (Detector.run self payloads))
  /\ Detector.count (fst (Detector.run self payloads))
     <= Detector.count (fst (Detector.run self (payloads ++ more)))
  /\ (forall payload,
        snd (Detector.update self payload) = None ->
        Detector.count (fst (Detector.update self payload))
        = Detector.count self).
Proof.
  cbv zeta.
  assert (Hinv :
    Detector.count (fst (Detector.run (Detector.init State.empty config) payloads)) = 0
    <-> Detector.timestamp (fst (Detector.run (Detector.init State.empty config) payloads)) = None).
  { rewrite run_count, run_timestamp. simpl.
    pose proof (accepted_nonneg
      (snd (Detector.run (Detector.init State.empty config) payloads))).
    intuition lia. }
  split; [exact Hinv|]. split; [exact Hinv|].
  split; [apply run_count|]. split.
  - rewrite run_app. cbn [fst]. rewrite (run_count (fst (Detector.run self payloads))).
    pose proof (accepted_nonneg
      (snd (Detector.run (fst (Detector.run self payloads)) more))). lia.
  - intros payload Hnone. rewrite update_count, Hnone. simpl. lia.
Qed.

(** ** The Redis mapping *)

Lemma raises_bind {A B : Type} (r : result A) (k : A -> result B) :
  raises (r ≫= k)
  <-> raises r \/ exists a, r = Ok a /\ raises (k a).
Proof.
  destruct r as [a|e]; simpl.
  - split; [eauto|]. intros [[]|(a' & [= <-] & Hk)]. exact Hk.
  - split; [auto|]. intros _. exact I.
Qed.

Lemma not_raises_ok {A : Type} (r : result A) :
  ~ raises r -> exists a, r = Ok a.
Proof. destruct r; simpl; [eauto|tauto]. Qed.

(** What [from_redis_dict] computes, field by field. *)
Lemma from_redis_dict_unfold (data : gmap string redis_value) :
  State.from_redis_dict data
  = (timestamp ←
       match data !! State.FIELD_TIMESTAMP with
       | None => Ok None
       | Some v => d ← py_int v ≫= Datetime.fromtimestamp; Ok (Some d)
       end;
     count ← getitem data State.FIELD_COUNT ≫= py_int;
     moving_avg_short ← getitem data State.FIELD_MOVING_AVG_SHORT ≫= py_float;
     moving_avg_long ← getitem data State.FIELD_MOVING_AVG_LONG ≫= py_float;
     Ok {| State.timestamp := timestamp;
           State.count := count;
           State.moving_avg_short := moving_avg_short;
           State.moving_avg_long := moving_avg_long |}).
Proof.
  unfold State.from_redis_dict.
  destruct (data !! State.FIELD_TIMESTAMP) as [v|]; [|reflexivity].
  destruct (py_int v) as [t|e]; [|reflexivity]. simpl.
  destruct (Datetime.fromtimestamp t); reflexivity.
Qed.

Lemma getitem_raises {A : Type} (coerce : redis_value -> result A)
    (data : gmap string redis_value) (key : string) :
  raises (getitem data key ≫= coerce) <-> State.field_malformed coerce data key.
Proof.
  unfold getitem, State.field_malformed.
  destruct (data !! key); simpl; tauto.
Qed.

(** C10: [from_redis_dict] coerces what it finds: [T] and [C] with
    [int()], [S] and [L] with [float()]; so text and numbers are both
    read, and [C = "5"], [S = "1.5"], [L = "2.0"] gives count 5 and the
    averages 1.5 and 2.0. *)
Theorem from_redis_dict_coerces (data : gmap string redis_value)
    (vT vC vS vL : redis_value) :
  data !! State.FIELD_TIMESTAMP = Some vT ->
  data !! State.FIELD_COUNT = Some vC ->
  data !! State.FIELD_MOVING_AVG_SHORT = Some vS ->
  data !! State.FIELD_MOVING_AVG_LONG = Some vL ->
  State.from_redis_dict data
  = (t ← py_int vT;
     timestamp ← Datetime.fromtimestamp t;
     count ← py_int vC;
     moving_avg_short ← py_float vS;
     moving_avg_long ← py_float vL;
     Ok {| State.timestamp := Some timestamp;
           State.count := count;
           State.moving_avg_short := moving_avg_short;
           State.moving_avg_long := moving_avg_long |})
  /\ State.from_redis_dict
       {[ "C" := RStr "5"; "S" := RStr "1.5"; "L" := RStr "2.0" ]}
     = Ok {| State.timestamp := None; State.count := 5;
             State.moving_avg_short := 1.5; State.moving_avg_long := 2 |}
  /\ State.from_redis_dict
       {[ "C" := RBytes "5"; "S" := RFloat 1.5; "L" := RInt 2 ]}
     = Ok {| State.timestamp := None; State.count := 5;
             State.moving_avg_short := 1.5; State.moving_avg_long := 2 |}.
Proof.
  intros HT HC HS HL. split; [|split; vm_compute; reflexivity].
  rewrite from_redis_dict_unfold. unfold getitem.
  rewrite HT, HC, HS, HL.
  destruct (py_int vT) as [t|e]; [|reflexivity]. simpl.
  destruct (Datetime.fromtimestamp t); reflexivity.
Qed.

(** The witness of C10: the four fields as text. *)
Lemma from_redis_dict_coerces_witness :
  State.from_redis_dict
    {[ "T" := RStr "1700000000"; "C" := RStr "5"; "S" := RStr "1.5";
       "L" := RStr "2.0" ]}
  = Ok {| State.timestamp := Some 1700000000000000; State.count := 5;
          State.moving_avg_short := 1.5; State.moving_avg_long := 2 |}.
Proof.
  destruct (from_redis_dict_coerces
              {[ "T" := RStr "1700000000"; "C" := RStr "5"; "S" := RStr "1.5";
                 "L" := RStr "2.0" ]}
              (RStr "1700000000") (RStr "5") (RStr "1.5") (RStr "2.0"))
    as [Heq _]; [reflexivity..|].
  rewrite Heq. vm_compute. reflexivity.
Defined.

Lemma py_int_error (v : redis_value) (e : exn) :
  py_int v = Raise e -> e = ValueError \/ e = OverflowError.
Proof.
  destruct v as [z|x|s|s]; simpl.
  - discriminate.
  - unfold PyNum.int_of_float, PyNum.trunc_SF.
    destruct (Prim2SF x); intros [= <-]; auto.
  - unfold PyText.parse_int.
    destruct (PyText.split_sign _) as [neg l].
    destruct (PyText.digits l) as [[v n]|]; [destruct (_ <? n)|];
      intros [= <-]; auto.
  - unfold PyText.parse_int.
    destruct (PyText.split_sign _) as [neg l].
    destruct (PyText.digits l) as [[v n]|]; [destruct (_ <? n)|];
      intros [= <-]; auto.
Qed.

Lemma parse_float_error (s : string) (e : exn) :
  PyText.parse_float s = Raise e -> e = ValueError.
Proof.
  unfold PyText.parse_float.
  destruct (PyText.split_sign _) as [neg l].
  destruct (_ || _); [discriminate|].
  destruct (PyText.is_word "nan" l); [discriminate|].
  destruct (PyText.decimal l) as [[]|]; now intros [= <-].
Qed.

Lemma py_float_error (v : redis_value) (e : exn) :
  py_float v = Raise e -> e = ValueError \/ e = OverflowError.
Proof.
  destruct v as [z|x|s|s]; simpl.
  - unfold PyNum.float_of_int, PyNum.truediv.
    destruct (PyNum.is_finite_SF _); intros [= <-]; auto.
  - discriminate.
  - intros Hs. left. exact (parse_float_error _ e Hs).
  - intros Hs. left. exact (parse_float_error s e Hs).
Qed.

Lemma fromtimestamp_error (t : Z) (e : exn) :
  Datetime.fromtimestamp t = Raise e ->
  e = ValueError \/ e = OverflowError \/ e = OSError.
Proof.
  unfold Datetime.fromtimestamp.
  destruct (_ || _); [intros [= <-]; auto|].
  destruct (_ || _); [intros [= <-]; auto|].
  destruct (_ || _); intros [= <-]; auto.
Qed.

(** C7 as it is stated fails: a mapping whose count and averages are
    fine but whose timestamp is not a number makes [from_redis_dict]
    raise. *)
Lemma from_redis_dict_bad_timestamp_raises :
  raises (State.from_redis_dict
            {[ "T" := RStr "abc"; "C" := RInt 1; "S" := RFloat 1;
               "L" := RFloat 1 ]})
  /\ ~ State.numeric_fields_malformed
         {[ "T" := RStr "abc"; "C" := RInt 1; "S" := RFloat 1;
            "L" := RFloat 1 ]}.
Proof.
  split; [vm_compute; exact I|].
  unfold State.numeric_fields_malformed, State.field_malformed.
  vm_compute. tauto.
Qed.

(** C7, amended: [from_redis_dict] raises exactly when the count or one
    of the averages is missing or not a number, or the timestamp is
    there and is not an int in the range of [datetime]. What is raised is
    the exception of the step that fails: the [KeyError] of the missing
    field, the [ValueError] or [OverflowError] of a coercion, or the
    [OSError] of [fromtimestamp], which only the timestamp can cause. A
    missing timestamp is no error and gives [timestamp = None]. *)
Theorem from_redis_dict_raises_iff (data : gmap string redis_value) :
  (raises (State.from_redis_dict data)
   <-> State.timestamp_malformed data \/ State.numeric_fields_malformed data)
  /\ (forall e, State.from_redis_dict data = Raise e ->
        e = ValueError \/ e = OverflowError \/ e = OSError
        \/ exists key, e = KeyError key /\ data !! key = None
             /\ key ∈ [State.FIELD_COUNT; State.FIELD_MOVING_AVG_SHORT;
                        State.FIELD_MOVING_AVG_LONG])
  /\ (data !! State.FIELD_TIMESTAMP = None ->
      ~ State.numeric_fields_malformed data ->
      exists state, State.from_redis_dict data = Ok state
                    /\ State.timestamp state = None)
  /\ (State.from_redis_dict data = Raise OSError ->
      State.timestamp_malformed data).
Proof.
  rewrite from_redis_dict_unfold.
  unfold State.timestamp_malformed, State.numeric_fields_malformed,
    State.field_malformed, getitem.
  repeat
    (simpl;
     match goal with
     | |- context [match ?m !! ?k with _ => _ end] => destruct (m !! k) eqn:?
     | |- context [py_int ?v] => destruct (py_int v) eqn:?
     | |- context [py_float ?v] => destruct (py_float v) eqn:?
     | |- context [Datetime.fromtimestamp ?t] =>
         destruct (Datetime.fromtimestamp t) eqn:?
     end);
    simpl;
    (split; [tauto|]);
    (split;
     [intros ? [= <-];
      first
        [ match goal with
          | H : py_int _ = Raise _ |- _ =>
              destruct (py_int_error _ _ H); now auto
          | H : py_float _ = Raise _ |- _ =>
              destruct (py_float_error _ _ H); now auto
          | H : Datetime.fromtimestamp _ = Raise _ |- _ =>
              destruct (fromtimestamp_error _ _ H) as [|[|]]; now auto
          end
        | do 3 right; eexists; split; [reflexivity|];
          split; [eassumption|]; set_solver ]
     |]);
    (split;
     [ try (intros _ Hn; exfalso; tauto); try discriminate;
       intros _ _; eexists; split; reflexivity
     | intros Heq;
       first
         [ exact I
         | discriminate Heq
         | injection Heq as Heq; subst;
           match goal with
           | H : py_int _ = Raise OSError |- _ =>
               destruct (py_int_error _ _ H); discriminate
           | H : py_float _ = Raise OSError |- _ =>
               destruct (py_float_error _ _ H); discriminate
           end ] ]).
Qed.

(** ** Rounding to binary64 *)

Lemma digits2_pos_bounds (p : positive) :
  2 ^ (Zpos (digits2_pos p) - 1) <= Zpos p < 2 ^ Zpos (digits2_pos p).
Proof.
  induction p as [p IH|p IH|]; cbn [digits2_pos].
  - rewrite Pos2Z.inj_succ.
    replace (Z.succ (Zpos (digits2_pos p)) - 1) with (Zpos (digits2_pos p) - 1 + 1) by lia.
    rewrite Z.pow_succ_r by lia.
    rewrite (Z.pow_add_r 2 (Zpos (digits2_pos p) - 1) 1), Z.pow_1_r by lia. lia.
  - rewrite Pos2Z.inj_succ.
    replace (Z.succ (Zpos (digits2_pos p)) - 1) with (Zpos (digits2_pos p) - 1 + 1) by lia.
    rewrite Z.pow_succ_r by lia.
    rewrite (Z.pow_add_r 2 (Zpos (digits2_pos p) - 1) 1), Z.pow_1_r by lia. lia.
  - simpl. lia.
Qed.

(** A mantissa below [2^53], and at least [2^52] unless the exponent is
    the smallest one, makes a binary64. *)
Lemma valid_binary_finite (s : bool) (m e : Z) :
  0 < m < 2 ^ 53 ->
  PyNum.emin <= e <= PyNum.etop ->
  (PyNum.emin < e -> 2 ^ 52 <= m) ->
  valid_binary (S754_finite s (Z.to_pos m) e) = true.
Proof.
  unfold PyNum.emin, PyNum.etop. intros Hm He Hnorm.
  unfold SpecFloat.valid_binary, bounded, canonical_mantissa, fexp, SpecFloat.emin.
  change (3 - emax - prec) with (-1074). change (emax - prec) with 971.
  change prec with 53.
  pose proof (digits2_pos_bounds (Z.to_pos m)) as Hd.
  rewrite Z2Pos.id in Hd by lia.
  set (d := Zpos (digits2_pos (Z.to_pos m))) in *.
  assert (Hd53 : d <= 53).
  { destruct (Z_le_gt_dec d 53) as [|Hgt]; [done|].
    assert (2 ^ 53 <= 2 ^ (d - 1)) by (apply Z.pow_le_mono_r; lia). lia. }
  apply andb_true_intro. split; [|apply Z.leb_le; lia].
  apply Z.eqb_eq.
  destruct (Z_le_gt_dec e (-1074)) as [Hmin|Hgt]; [lia|].
  assert (53 <= d).
  { destruct (Z_le_gt_dec 53 d) as [|Hlt]; [done|].
    assert (2 ^ d <= 2 ^ 52) by (apply Z.pow_le_mono_r; lia). lia. }
  lia.
Qed.

Lemma round_half_even_cases (n d : Z) :
  0 < d ->
  (PyNum.round_half_even n d = n / d /\ 2 * (n mod d) <= d)
  \/ (PyNum.round_half_even n d = n / d + 1 /\ d <= 2 * (n mod d)).
Proof.
  intros Hd. unfold PyNum.round_half_even.
  destruct (Z.ltb_spec d (2 * (n mod d))); simpl; [right; lia|].
  destruct (Z.eqb_spec d (2 * (n mod d))); simpl; [|left; lia].
  destruct (Z.odd (n / d)); [right|left]; lia.
Qed.

(** Comparing [a] with [b * 2^x] for an exponent [x] of either sign is
    done on integers, [a * 2^max(0,-x)] against [b * 2^max(0,x)]; against
    a common scale [2^K] this is [a * 2^(K-x)] against [b * 2^K]. *)
Lemma pow2_scale (x K : Z) :
  Z.abs x <= K ->
  2 ^ Z.max 0 x * 2 ^ (K - x) = 2 ^ Z.max 0 (- x) * 2 ^ K.
Proof.
  intros HK. rewrite <- !Z.pow_add_r by lia. f_equal. lia.
Qed.

Lemma scaled_lt (a b x K : Z) :
  Z.abs x <= K ->
  a * 2 ^ Z.max 0 (- x) < b * 2 ^ Z.max 0 x <-> a * 2 ^ (K - x) < b * 2 ^ K.
Proof.
  intros HK. pose proof (pow2_scale x K HK) as E.
  assert (0 < 2 ^ Z.max 0 x) by (apply Z.pow_pos_nonneg; lia).
  assert (0 < 2 ^ Z.max 0 (- x)) by (apply Z.pow_pos_nonneg; lia).
  assert (0 < 2 ^ (K - x)) by (apply Z.pow_pos_nonneg; lia).
  assert (0 < 2 ^ K) by (apply Z.pow_pos_nonneg; lia).
  set (u := 2 ^ Z.max 0 x) in *. set (v := 2 ^ Z.max 0 (- x)) in *.
  set (P := 2 ^ (K - x)) in *. set (Q := 2 ^ K) in *.
  split; intros Hlt.
  - apply (Z.mul_lt_mono_pos_l v); [lia|].
    replace (v * (b * Q)) with (b * u * P)
      by (rewrite <- (Z.mul_assoc b u P), E; ring).
    replace (v * (a * P)) with (a * v * P) by ring.
    apply Z.mul_lt_mono_pos_r; lia.
  - apply (Z.mul_lt_mono_pos_r P); [lia|].
    replace (b * u * P) with (v * (b * Q))
      by (rewrite <- (Z.mul_assoc b u P), E; ring).
    replace (a * v * P) with (v * (a * P)) by ring.
    apply Z.mul_lt_mono_pos_l; lia.
Qed.

Lemma scaled_le (a b x K : Z) :
  Z.abs x <= K ->
  b * 2 ^ Z.max 0 x <= a * 2 ^ Z.max 0 (- x) <-> b * 2 ^ K <= a * 2 ^ (K - x).
Proof.
  intros HK. pose proof (scaled_lt a b x K HK). lia.
Qed.

(** The exponent chosen for [a / b] leaves a quotient of at most 53
    bits, and of exactly 53 bits unless the exponent is the smallest. *)
Lemma ratio_exponent_spec (a b : Z) :
  0 < a -> 0 < b ->
  let e := PyNum.ratio_exponent a b in
  PyNum.emin <= e
  /\ a * 2 ^ Z.max 0 (- e) < 2 ^ 53 * b * 2 ^ Z.max 0 e
  /\ (PyNum.emin < e -> 2 ^ 52 * b * 2 ^ Z.max 0 e <= a * 2 ^ Z.max 0 (- e)).
Proof.
  intros Ha Hb. cbv zeta. unfold PyNum.ratio_exponent, PyNum.emin.
  pose proof (Z.log2_spec a Ha) as Hla. pose proof (Z.log2_spec b Hb) as Hlb.
  pose proof (Z.log2_nonneg a). pose proof (Z.log2_nonneg b).
  set (la := Z.log2 a) in *. set (lb := Z.log2 b) in *.
  set (e0 := la - lb).
  set (K := la + lb + 1200).
  (* the test compares [a] with [b * 2^e0] *)
  set (e1 := if a * 2 ^ Z.max 0 (- e0) <? b * 2 ^ Z.max 0 e0 then e0 - 1 else e0).
  assert (HK : 0 < 2 ^ K) by (apply Z.pow_pos_nonneg; lia).
  assert (H1 : b * 2 ^ K <= a * 2 ^ (K - e1) < 2 * (b * 2 ^ K)).
  { assert (E : 2 ^ (K - e0) * 2 ^ la = 2 ^ K * 2 ^ lb).
    { rewrite <- !Z.pow_add_r by lia. f_equal. lia. }
    assert (0 < 2 ^ (K - e0)) by (apply Z.pow_pos_nonneg; lia).
    assert (Hlo : b * 2 ^ K < 2 * (a * 2 ^ (K - e0))).
    { apply Z.lt_le_trans with (2 * (2 ^ K * 2 ^ lb)).
      - rewrite Z.pow_succ_r in Hlb by lia. nia.
      - rewrite <- E. nia. }
    assert (Hhi : a * 2 ^ (K - e0) < 2 * (b * 2 ^ K)).
    { apply Z.lt_le_trans with (2 * (2 ^ (K - e0) * 2 ^ la)).
      - rewrite Z.pow_succ_r in Hla by lia. nia.
      - rewrite E. nia. }
    subst e1.
    destruct (Z.ltb_spec (a * 2 ^ Z.max 0 (- e0)) (b * 2 ^ Z.max 0 e0)) as [Ht|Ht].
    - apply (scaled_lt a b e0 K) in Ht; [|lia].
      replace (K - (e0 - 1)) with (Z.succ (K - e0)) by lia.
      rewrite Z.pow_succ_r by lia. lia.
    - apply (scaled_le a b e0 K) in Ht; [|lia]. lia. }
  assert (He1 : Z.abs e1 <= la + lb + 1) by (subst e1; destruct (_ <? _); lia).
  clearbody e1. clear Hla Hlb.
  assert (H52 : a * 2 ^ (K - (e1 - 52)) = 2 ^ 52 * (a * 2 ^ (K - e1))).
  { replace (K - (e1 - 52)) with (52 + (K - e1)) by lia.
    rewrite Z.pow_add_r by lia. lia. }
  set (e := Z.max (e1 - 52) (-1074)).
  assert (Hmono : a * 2 ^ (K - e) <= a * 2 ^ (K - (e1 - 52))).
  { apply Z.mul_le_mono_nonneg_l; [lia|]. apply Z.pow_le_mono_r; lia. }
  split; [lia|]. split.
  - replace (2 ^ 53 * b * 2 ^ Z.max 0 e) with ((2 ^ 53 * b) * 2 ^ Z.max 0 e) by lia.
    apply (scaled_lt a (2 ^ 53 * b) e K); lia.
  - intros Hnorm. assert (e = e1 - 52) as -> by lia.
    replace (2 ^ 52 * b * 2 ^ Z.max 0 (e1 - 52))
      with ((2 ^ 52 * b) * 2 ^ Z.max 0 (e1 - 52)) by lia.
    apply (scaled_le a (2 ^ 52 * b) (e1 - 52) K); lia.
Qed.

(** Every quotient rounds to a binary64 (or to an infinity). *)
Lemma SF_of_ratio_valid (s : bool) (a b : Z) :
  0 < a -> 0 < b -> valid_binary (PyNum.SF_of_ratio s a b) = true.
Proof.
  intros Ha Hb.
  destruct (ratio_exponent_spec a b Ha Hb) as (Hmin & Hhi & Hlo).
  unfold PyNum.SF_of_ratio.
  set (e := PyNum.ratio_exponent a b) in *.
  assert (Hdd : 0 < b * 2 ^ Z.max 0 e).
  { apply Z.mul_pos_pos; [lia|apply Z.pow_pos_nonneg; lia]. }
  assert (Hn : 0 <= a * 2 ^ Z.max 0 (- e)).
  { apply Z.mul_nonneg_nonneg; [lia|apply Z.pow_nonneg; lia]. }
  set (n := a * 2 ^ Z.max 0 (- e)) in *. set (dd := b * 2 ^ Z.max 0 e) in *.
  assert (Hq0 : 0 <= n / dd) by (apply Z.div_pos; lia).
  assert (Hq53 : n / dd < 2 ^ 53) by (apply Z.div_lt_upper_bound; lia).
  assert (Hq52 : PyNum.emin < e -> 2 ^ 52 <= n / dd).
  { intros He. apply Z.div_le_lower_bound; [lia|]. specialize (Hlo He). lia. }
  destruct (round_half_even_cases n dd Hdd) as [[-> _]|[-> _]].
  - destruct (Z.eqb_spec (n / dd) 0); [reflexivity|].
    destruct (Z.eqb_spec (n / dd) (2 ^ 53)); [lia|].
    destruct (Z.leb_spec e PyNum.etop); [|reflexivity].
    apply valid_binary_finite; lia.
  - destruct (Z.eqb_spec (n / dd + 1) 0); [reflexivity|].
    destruct (Z.eqb_spec (n / dd + 1) (2 ^ 53)).
    + destruct (Z.leb_spec (e + 1) PyNum.etop); [|reflexivity].
      apply valid_binary_finite; lia.
    + destruct (Z.leb_spec e PyNum.etop); [|reflexivity].
      apply valid_binary_finite; lia.
Qed.

(** A quotient below [2^j], [j] at most 53, gets an exponent of at most
    [j - 53]: its float has a bit of weight [2^(j-53)] or less. *)
Lemma ratio_exponent_le (a b j : Z) :
  0 < a -> 0 < b -> 0 <= j <= 53 -> a < 2 ^ j * b ->
  PyNum.ratio_exponent a b <= j - 53.
Proof.
  intros Ha Hb Hj Hab.
  destruct (ratio_exponent_spec a b Ha Hb) as (Hmin & _ & Hlo).
  set (e := PyNum.ratio_exponent a b) in *.
  destruct (Z_le_gt_dec e (j - 53)) as [|Hgt]; [done|exfalso].
  unfold PyNum.emin in *. specialize (Hlo ltac:(lia)).
  destruct (Z_le_gt_dec 0 e) as [Hpos|Hneg].
  - rewrite (Z.max_l 0 (- e)), (Z.max_r 0 e), Z.pow_0_r in Hlo by lia.
    assert (2 ^ j <= 2 ^ 52 * 2 ^ e).
    { rewrite <- Z.pow_add_r by lia. apply Z.pow_le_mono_r; lia. }
    nia.
  - rewrite (Z.max_r 0 (- e)), (Z.max_l 0 e), Z.pow_0_r in Hlo by lia.
    assert (2 ^ j * 2 ^ (- e) <= 2 ^ 52).
    { rewrite <- Z.pow_add_r by lia. apply Z.pow_le_mono_r; lia. }
    assert (0 < 2 ^ (- e)) by (apply Z.pow_pos_nonneg; lia).
    nia.
Qed.

(** The integer part of a rounded quotient whose exponent is not
    positive. *)
Lemma trunc_SF_of_ratio (s : bool) (a b : Z) :
  0 < a -> 0 < b ->
  PyNum.ratio_exponent a b <= 0 ->
  let N := 2 ^ (- PyNum.ratio_exponent a b) in
  let v := PyNum.round_half_even (a * N) b / N in
  PyNum.is_finite_SF (PyNum.SF_of_ratio s a b) = true
  /\ PyNum.trunc_SF (PyNum.SF_of_ratio s a b) = Ok (if s then - v else v).
Proof.
  intros Ha Hb He. cbv zeta.
  destruct (ratio_exponent_spec a b Ha Hb) as (Hmin & Hhi & _).
  unfold PyNum.SF_of_ratio. unfold PyNum.emin, PyNum.etop in *.
  set (e := PyNum.ratio_exponent a b) in *.
  rewrite (Z.max_r 0 (- e)), (Z.max_l 0 e), Z.pow_0_r, Z.mul_1_r in * by lia.
  assert (HN : 0 < 2 ^ (- e)) by (apply Z.pow_pos_nonneg; lia).
  set (N := 2 ^ (- e)) in *.
  assert (Hq0 : 0 <= a * N / b) by (apply Z.div_pos; nia).
  assert (Hm : 0 <= PyNum.round_half_even (a * N) b).
  { destruct (round_half_even_cases (a * N) b Hb) as [[-> _]|[-> _]]; lia. }
  set (m := PyNum.round_half_even (a * N) b) in *.
  destruct (Z.eqb_spec m 0) as [->|Hm0].
  { rewrite Z.div_0_l by lia. now destruct s. }
  destruct (Z.eqb_spec m (2 ^ 53)) as [Hm53|Hm53].
  - destruct (Z.leb_spec (e + 1) 971); [|lia]. split; [reflexivity|].
    cbn [PyNum.trunc_SF]. rewrite Z2Pos.id by lia. do 2 f_equal.
    destruct (Z.leb_spec 0 (e + 1)).
    + rewrite Hm53. subst N.
      assert (e = -1 \/ e = 0) as [->| ->] by lia; reflexivity.
    + rewrite Hm53. subst N.
      replace (- e) with (1 + - (e + 1)) by lia.
      rewrite Z.pow_add_r by lia.
      change (2 ^ 53) with (2 ^ 1 * 2 ^ 52).
      rewrite Z.div_mul_cancel_l; [reflexivity| |lia].
      apply Z.pow_nonzero; lia.
  - destruct (Z.leb_spec e 971); [|lia]. split; [reflexivity|].
    cbn [PyNum.trunc_SF]. rewrite Z2Pos.id by lia. do 2 f_equal.
    destruct (Z.leb_spec 0 e); [|reflexivity].
    assert (e = 0) as Heq by lia. subst N. rewrite Heq. simpl.
    now rewrite Z.mul_1_r, Z.div_1_r.
Qed.

(** An exact quotient is not moved by the rounding. *)
Lemma round_half_even_exact (k b N : Z) :
  0 < b -> 0 < N -> PyNum.round_half_even (k * b * N) b / N = k.
Proof.
  intros Hb HN. unfold PyNum.round_half_even.
  replace (k * b * N) with (k * N * b) by ring.
  rewrite Z.div_mul, Z.mod_mul by lia.
  destruct (Z.ltb_spec b (2 * 0)); [lia|].
  destruct (Z.eqb_spec b (2 * 0)); [lia|]. simpl.
  apply Z.div_mul; lia.
Qed.


(** [int(a / b)] for ints, where the quotient is below [2^53]: the
    quotient rounded to the float's precision and then cut. *)
Lemma int_of_rounded_ratio (s : bool) (a b : Z) :
  0 < a -> 0 < b -> a < 2 ^ 53 * b ->
  let N := 2 ^ (- PyNum.ratio_exponent a b) in
  let v := PyNum.round_half_even (a * N) b / N in
  PyNum.is_finite_SF (PyNum.SF_of_ratio s a b) = true
  /\ PyNum.int_of_float (SF2Prim (PyNum.SF_of_ratio s a b))
     = Ok (if s then - v else v).
Proof.
  intros Ha Hb Hab.
  pose proof (ratio_exponent_le a b 53 Ha Hb ltac:(lia) Hab) as He.
  destruct (trunc_SF_of_ratio s a b Ha Hb ltac:(lia)) as [Hfin Htr].
  cbv zeta. split; [exact Hfin|].
  unfold PyNum.int_of_float.
  rewrite Prim2SF_SF2Prim by (apply SF_of_ratio_valid; lia).
  exact Htr.
Qed.

(** [int(d.timestamp())] of a whole second is that second. *)
Lemma timestamp_whole_second (k : Z) :
  - 2 ^ 53 < k < 2 ^ 53 ->
  Datetime.timestamp (k * 1000000) ≫= PyNum.int_of_float = Ok k.
Proof.
  intros Hk. unfold Datetime.timestamp, PyNum.truediv, PyNum.SF_of_Zratio.
  assert (HN : forall a, 0 < a < 2 ^ 53 * 1000000 ->
    0 < 2 ^ (- PyNum.ratio_exponent a 1000000)).
  { intros a Ha. apply Z.pow_pos_nonneg; [lia|].
    pose proof (ratio_exponent_le a 1000000 53 ltac:(lia) ltac:(lia)
                  ltac:(lia) ltac:(lia)). lia. }
  destruct (k * 1000000) as [|p|p] eqn:Hd.
  - assert (k = 0) as -> by lia. reflexivity.
  - destruct (int_of_rounded_ratio false (Zpos p) 1000000) as [-> Hi];
      [lia..|]. simpl mbind. rewrite Hi. f_equal.
    rewrite <- Hd. apply round_half_even_exact; [lia|].
    rewrite Hd. apply HN. lia.
  - destruct (int_of_rounded_ratio true (Zpos p) 1000000) as [-> Hi];
      [lia..|]. simpl mbind. rewrite Hi. f_equal.
    replace (Zpos p) with (- k * 1000000) by lia.
    rewrite round_half_even_exact; [lia|lia|].
    apply HN. lia.
Qed.


(** ** The round trip through the mapping *)

(** What [to_redis_dict] writes is read back field by field. *)
Lemma from_redis_dict_written (ts : option Z) (c : Z) (x y : float) :
  State.from_redis_dict
    (let d : gmap string redis_value :=
       <[State.FIELD_MOVING_AVG_LONG := RFloat y]>
         (<[State.FIELD_MOVING_AVG_SHORT := RFloat x]>
            (<[State.FIELD_COUNT := RInt c]> ∅)) in
     match ts with
     | Some t => <[State.FIELD_TIMESTAMP := RInt t]> d
     | None => d
     end)
  = (timestamp ←
       match ts with
       | Some t => d ← Datetime.fromtimestamp t; Ok (Some d)
       | None => Ok None
       end;
     Ok {| State.timestamp := timestamp; State.count := c;
           State.moving_avg_short := x; State.moving_avg_long := y |}).
Proof.
  rewrite from_redis_dict_unfold. unfold getitem. cbv zeta.
  destruct ts as [t|].
  - rewrite lookup_insert_eq.
    rewrite !(lookup_insert_ne _ State.FIELD_TIMESTAMP) by done.
    rewrite (lookup_insert_ne _ State.FIELD_MOVING_AVG_LONG State.FIELD_COUNT) by done.
    rewrite (lookup_insert_ne _ State.FIELD_MOVING_AVG_SHORT State.FIELD_COUNT) by done.
    rewrite (lookup_insert_ne _ State.FIELD_MOVING_AVG_LONG State.FIELD_MOVING_AVG_SHORT) by done.
    rewrite !lookup_insert_eq. simpl.
    destruct (Datetime.fromtimestamp t); reflexivity.
  - rewrite (lookup_insert_ne _ State.FIELD_MOVING_AVG_LONG State.FIELD_TIMESTAMP) by done.
    rewrite (lookup_insert_ne _ State.FIELD_MOVING_AVG_SHORT State.FIELD_TIMESTAMP) by done.
    rewrite (lookup_insert_ne _ State.FIELD_COUNT State.FIELD_TIMESTAMP) by done.
    rewrite lookup_empty.
    rewrite (lookup_insert_ne _ State.FIELD_MOVING_AVG_LONG State.FIELD_COUNT) by done.
    rewrite (lookup_insert_ne _ State.FIELD_MOVING_AVG_SHORT State.FIELD_COUNT) by done.
    rewrite (lookup_insert_ne _ State.FIELD_MOVING_AVG_LONG State.FIELD_MOVING_AVG_SHORT) by done.
    rewrite !lookup_insert_eq. reflexivity.
Qed.

Lemma roundtrip_unfold (s : State.MovingAverageCrossOverDetectorState) :
  State.roundtrip s
  = (timestamp ←
       match State.timestamp s with
       | Some d =>
           t ← Datetime.timestamp d ≫= PyNum.int_of_float;
           d' ← Datetime.fromtimestamp t;
           Ok (Some d')
       | None => Ok None
       end;
     Ok {| State.timestamp := timestamp;
           State.count := State.count s;
           State.moving_avg_short := State.moving_avg_short s;
           State.moving_avg_long := State.moving_avg_long s |}).
Proof.
  destruct s as [[d|] c x y]; unfold State.roundtrip, State.to_redis_dict;
    cbn [State.timestamp State.count State.moving_avg_short
         State.moving_avg_long].
  - destruct (Datetime.timestamp d) as [f|e]; [|reflexivity]. simpl mbind.
    destruct (PyNum.int_of_float f) as [t|e]; [|reflexivity]. simpl mbind.
    pose proof (from_redis_dict_written (Some t) c x y) as E.
    cbv beta iota zeta in E. unfold mret, result_ret. rewrite E.
    destruct (Datetime.fromtimestamp t); reflexivity.
  - pose proof (from_redis_dict_written None c x y) as E.
    cbv beta iota zeta in E. unfold mret, result_ret. simpl mbind.
    rewrite E. reflexivity.
Qed.

Lemma fromtimestamp_in_range (t : Z) :
  Datetime.min_seconds <= t <= Datetime.max_seconds ->
  Datetime.fromtimestamp t = Ok (t * 1000000).
Proof.
  unfold Datetime.fromtimestamp, Datetime.min_seconds, Datetime.max_seconds.
  intros Ht.
  destruct (Z.ltb_spec t (- 2 ^ 63)); [lia|].
  destruct (Z.leb_spec (2 ^ 63) t); [lia|].
  destruct (Z.ltb_spec t Datetime.gmtime_min);
    [unfold Datetime.gmtime_min in *; lia|].
  destruct (Z.ltb_spec Datetime.gmtime_max t);
    [unfold Datetime.gmtime_max in *; lia|].
  destruct (Z.ltb_spec t (-62135596800)); [lia|].
  destruct (Z.ltb_spec 253402300799 t); [lia|]. reflexivity.
Qed.




(** * Further properties of the code *)

(** ** The mapping, beyond the round trip of whole seconds *)

(** A quotient [s + f / b] moves, when rounded at any precision and cut,
    to [s] or to [s + 1], and stays at [s] when it is whole. *)
Lemma round_half_even_within (s f b N : Z) :
  0 <= f < b -> 0 < N ->
  let v := PyNum.round_half_even ((s * b + f) * N) b / N in
  s <= v <= s + 1 /\ (f = 0 -> v = s).
Proof.
  intros Hf HN. cbv zeta. assert (Hb : 0 < b) by lia. split.
  - replace ((s * b + f) * N) with (s * N * b + f * N) by ring.
    assert (Hq : (s * N * b + f * N) / b = s * N + f * N / b).
    { rewrite Z.add_comm, Z.div_add by lia. lia. }
    assert (Ht0 : 0 <= f * N / b) by (apply Z.div_pos; nia).
    assert (Ht1 : f * N / b < N) by (apply Z.div_lt_upper_bound; nia).
    split.
    + apply Z.div_le_lower_bound; [lia|].
      destruct (round_half_even_cases (s * N * b + f * N) b Hb)
        as [[-> _]|[-> _]]; rewrite Hq; lia.
    + apply Z.div_le_upper_bound; [lia|].
      destruct (round_half_even_cases (s * N * b + f * N) b Hb)
        as [[-> _]|[-> _]]; rewrite Hq; lia.
  - intros ->. rewrite Z.add_0_r. now apply round_half_even_exact.
Qed.

(** [int(d.timestamp())] never raises on a datetime and is less than a
    second away from it; a whole second is kept. *)
Lemma timestamp_within_a_second (d : datetime) :
  - 2 ^ 53 * 1000000 < d < 2 ^ 53 * 1000000 ->
  exists t,
    Datetime.timestamp d ≫= PyNum.int_of_float = Ok t
    /\ Z.abs (t * 1000000 - d) < 1000000
    /\ (d mod 1000000 = 0 -> t * 1000000 = d).
Proof.
  intros Hd. unfold Datetime.timestamp, PyNum.truediv, PyNum.SF_of_Zratio.
  assert (Hpos : forall a, 0 < a < 2 ^ 53 * 1000000 ->
    let v := PyNum.round_half_even
               (a * 2 ^ (- PyNum.ratio_exponent a 1000000)) 1000000
             / 2 ^ (- PyNum.ratio_exponent a 1000000) in
    Z.abs (v * 1000000 - a) < 1000000
    /\ (a mod 1000000 = 0 -> v * 1000000 = a)).
  { intros a Ha. cbv zeta.
    assert (HN : 0 < 2 ^ (- PyNum.ratio_exponent a 1000000)).
    { apply Z.pow_pos_nonneg; [lia|].
      pose proof (ratio_exponent_le a 1000000 53 ltac:(lia) ltac:(lia)
                    ltac:(lia) ltac:(lia)). lia. }
    pose proof (Z.div_mod a 1000000 ltac:(lia)) as Hdm.
    pose proof (Z.mod_pos_bound a 1000000 ltac:(lia)) as Hm.
    destruct (round_half_even_within (a / 1000000) (a mod 1000000) 1000000
                (2 ^ (- PyNum.ratio_exponent a 1000000)) Hm HN) as [Hv Hex].
    rewrite (Z.mul_comm (a / 1000000) 1000000), <- Hdm in Hv, Hex.
    destruct (Z.eq_dec (a mod 1000000) 0) as [Hz|Hnz].
    - rewrite (Hex Hz). lia.
    - lia. }
  destruct d as [|p|p].
  - exists 0. split; [reflexivity|]. lia.
  - destruct (int_of_rounded_ratio false (Zpos p) 1000000) as [-> Hi];
      [lia..|]. simpl mbind. rewrite Hi. eexists. split; [reflexivity|].
    apply Hpos. lia.
  - destruct (int_of_rounded_ratio true (Zpos p) 1000000) as [-> Hi];
      [lia..|]. simpl mbind. rewrite Hi. eexists. split; [reflexivity|].
    destruct (Hpos (Zpos p) ltac:(lia)) as [Habs Hex].
    change (Zneg p) with (- Zpos p). split; [lia|].
    intros Hmod. rewrite Z.mul_opp_l. f_equal. apply Hex.
    rewrite <- (Z.opp_involutive (Zpos p)).
    apply Z.mod_opp_l_z; [lia|exact Hmod].
Qed.

(** [to_redis_dict] does not raise on a state whose timestamp is a
    datetime. It writes the keys [C], [S] and [L], and [T] exactly when
    there is a timestamp: the count as an int, the averages as the floats
    they are, and for [T] an int less than a second away from the
    timestamp. *)
Theorem to_redis_dict_fields (s : State.MovingAverageCrossOverDetectorState) :
  State.timestamp_is Datetime.in_range s ->
  exists data,
    State.to_redis_dict s = Ok data
    /\ dom data
       = match State.timestamp s with
         | Some _ => {[State.FIELD_TIMESTAMP]}
         | None => ∅
         end
         ∪ {[State.FIELD_COUNT; State.FIELD_MOVING_AVG_SHORT;
             State.FIELD_MOVING_AVG_LONG]}
    /\ data !! State.FIELD_COUNT = Some (RInt (State.count s))
    /\ data !! State.FIELD_MOVING_AVG_SHORT
       = Some (RFloat (State.moving_avg_short s))
    /\ data !! State.FIELD_MOVING_AVG_LONG
       = Some (RFloat (State.moving_avg_long s))
    /\ match State.timestamp s with
       | Some d =>
           exists t, data !! State.FIELD_TIMESTAMP = Some (RInt t)
                     /\ Z.abs (t * 1000000 - d) < 1000000
       | None => data !! State.FIELD_TIMESTAMP = None
       end.
Proof.
  destruct s as [[d|] c x y]; unfold State.timestamp_is, State.to_redis_dict;
    cbn [State.timestamp State.count State.moving_avg_short
         State.moving_avg_long]; intros Hrange.
  - unfold Datetime.in_range, Datetime.min_seconds, Datetime.max_seconds in Hrange.
    destruct (timestamp_within_a_second d) as (t & Ht & Habs & _).
    { change (2 ^ 53) with 9007199254740992. lia. }
    destruct (Datetime.timestamp d) as [f|e]; [|discriminate Ht].
    simpl mbind in *. rewrite Ht. simpl mbind. eexists. split; [reflexivity|].
    split; [rewrite !dom_insert_L, dom_empty_L; set_solver|].
    repeat split; [done..|]. exists t. split; [done|exact Habs].
  - eexists. split; [reflexivity|].
    split; [rewrite !dom_insert_L, dom_empty_L; set_solver|].
    repeat split; done.
Qed.

(** The witness: a state with a timestamp in November 2023. *)
Lemma to_redis_dict_fields_witness :
  exists data,
    State.to_redis_dict
      {| State.timestamp := Some 1700000000123456; State.count := 7;
         State.moving_avg_short := 1.5; State.moving_avg_long := 2.5 |}
    = Ok data
    /\ data !! State.FIELD_COUNT = Some (RInt 7).
Proof.
  destruct (to_redis_dict_fields
              {| State.timestamp := Some 1700000000123456; State.count := 7;
                 State.moving_avg_short := 1.5; State.moving_avg_long := 2.5 |})
    as (data & Hdata & _ & Hcount & _).
  - unfold State.timestamp_is, Datetime.in_range, Datetime.min_seconds,
      Datetime.max_seconds; simpl; lia.
  - exists data. split; [exact Hdata|exact Hcount].
Defined.



(** The bound on the timestamp is needed: in the last second of the year
    9999 the seconds can round up to the year 10000, which
    [fromtimestamp] refuses. *)
Example roundtrip_last_second_raises :
  State.roundtrip
    {| State.timestamp := Some 253402300799999999; State.count := 1;
       State.moving_avg_short := 1; State.moving_avg_long := 2 |}
  = Raise ValueError.
Proof. vm_compute. reflexivity. Qed.

(** ** Reading a mapping *)

(** [from_redis_dict] reads the four fields and nothing else: a key
    other than [T], [C], [S] and [L] changes neither the state returned
    nor the exception raised. *)
Theorem from_redis_dict_ignores_other_keys (data : gmap string redis_value)
    (key : string) (v : redis_value) :
  key ∉ [State.FIELD_TIMESTAMP; State.FIELD_COUNT;
         State.FIELD_MOVING_AVG_SHORT; State.FIELD_MOVING_AVG_LONG] ->
  State.from_redis_dict (<[key := v]> data) = State.from_redis_dict data
  /\ State.from_redis_dict (delete key data) = State.from_redis_dict data.
Proof.
  intros Hkey. rewrite !from_redis_dict_unfold. unfold getitem.
  rewrite !not_elem_of_cons in Hkey. destruct Hkey as (? & ? & ? & ? & _).
  rewrite !lookup_insert_ne, !lookup_delete_ne by done.
  split; reflexivity.
Qed.

(** The witness: a field [X] beside the four. *)
Lemma from_redis_dict_ignores_other_keys_witness :
  State.from_redis_dict
    (<["X" := RStr "anything"]>
       {[ "C" := RStr "5"; "S" := RStr "1.5"; "L" := RStr "2.0" ]})
  = State.from_redis_dict
      {[ "C" := RStr "5"; "S" := RStr "1.5"; "L" := RStr "2.0" ]}.
Proof.
  apply (from_redis_dict_ignores_other_keys
           {[ "C" := RStr "5"; "S" := RStr "1.5"; "L" := RStr "2.0" ]}
           "X" (RStr "anything")).
  rewrite !not_elem_of_cons.
  repeat split; try discriminate. apply not_elem_of_nil.
Defined.

(** The timestamp is read first: when [T] is there and [int()] or
    [fromtimestamp] raises on it, that exception is what
    [from_redis_dict] raises, whatever the other fields are. *)
Theorem from_redis_dict_timestamp_error_first
    (data : gmap string redis_value) (v : redis_value) (e : exn) :
  data !! State.FIELD_TIMESTAMP = Some v ->
  py_int v ≫= Datetime.fromtimestamp = Raise e ->
  State.from_redis_dict data = Raise e.
Proof.
  intros HT He. rewrite from_redis_dict_unfold, HT, He. reflexivity.
Qed.

(** The witness: a timestamp that is no number, and no other field. *)
Lemma from_redis_dict_timestamp_error_first_witness :
  State.from_redis_dict {[ "T" := RStr "abc" ]} = Raise ValueError.
Proof.
  apply (from_redis_dict_timestamp_error_first {[ "T" := RStr "abc" ]}
           (RStr "abc") ValueError); reflexivity.
Defined.

(** With a timestamp that is fine or absent, the fields are read in the
    order [C], [S], [L], and the first one that is missing is the key of
    the [KeyError]. *)
Theorem from_redis_dict_missing_field (data : gmap string redis_value) :
  ~ State.timestamp_malformed data ->
  (data !! State.FIELD_COUNT = None ->
   State.from_redis_dict data = Raise (KeyError State.FIELD_COUNT))
  /\ (~ State.field_malformed py_int data State.FIELD_COUNT ->
      data !! State.FIELD_MOVING_AVG_SHORT = None ->
      State.from_redis_dict data
      = Raise (KeyError State.FIELD_MOVING_AVG_SHORT))
  /\ (~ State.field_malformed py_int data State.FIELD_COUNT ->
      ~ State.field_malformed py_float data State.FIELD_MOVING_AVG_SHORT ->
      data !! State.FIELD_MOVING_AVG_LONG = None ->
      State.from_redis_dict data
      = Raise (KeyError State.FIELD_MOVING_AVG_LONG)).
Proof.
  intros HT. rewrite from_redis_dict_unfold.
  unfold State.timestamp_malformed, State.field_malformed, getitem in *.
  assert (Hts : exists ts,
    match data !! State.FIELD_TIMESTAMP with
    | Some v => d ← py_int v ≫= Datetime.fromtimestamp; Ok (Some d)
    | None => Ok None
    end = Ok ts).
  { destruct (data !! State.FIELD_TIMESTAMP) as [v|]; [|eauto].
    destruct (py_int v ≫= Datetime.fromtimestamp); [eauto|].
    exfalso. apply HT. exact I. }
  destruct Hts as [ts ->]. simpl mbind.
  split; [intros ->; reflexivity|]. split.
  - intros HC HS.
    destruct (data !! State.FIELD_COUNT) as [vC|]; [|tauto]. simpl mbind.
    destruct (py_int vC); [|simpl in HC; tauto]. simpl mbind.
    rewrite HS. reflexivity.
  - intros HC HS HL.
    destruct (data !! State.FIELD_COUNT) as [vC|]; [|tauto]. simpl mbind.
    destruct (py_int vC); [|simpl in HC; tauto]. simpl mbind.
    destruct (data !! State.FIELD_MOVING_AVG_SHORT) as [vS|]; [|tauto].
    simpl mbind.
    destruct (py_float vS); [|simpl in HS; tauto]. simpl mbind.
    rewrite HL. reflexivity.
Qed.

(** The witness: the empty mapping, and one with the count alone. *)
Lemma from_redis_dict_missing_field_witness :
  State.from_redis_dict ∅ = Raise (KeyError "C")
  /\ State.from_redis_dict {[ "C" := RStr "5" ]} = Raise (KeyError "S").
Proof.
  split.
  - apply (from_redis_dict_missing_field ∅); [vm_compute; tauto|reflexivity].
  - apply (from_redis_dict_missing_field {[ "C" := RStr "5" ]});
      [vm_compute; tauto|vm_compute; tauto|reflexivity].
Defined.

Lemma fromtimestamp_ok (t : Z) (d : datetime) :
  Datetime.fromtimestamp t = Ok d ->
  d = t * 1000000 /\ Datetime.min_seconds <= t <= Datetime.max_seconds.
Proof.
  unfold Datetime.fromtimestamp.
  destruct (_ || _); [discriminate|].
  destruct (_ || _); [discriminate|].
  destruct (Z.ltb_spec t Datetime.min_seconds); [discriminate|].
  destruct (Z.ltb_spec Datetime.max_seconds t); [discriminate|].
  simpl. intros [= <-]. lia.
Qed.

(** What [from_redis_dict] returns is a state that the mapping holds
    exactly: its timestamp, if any, is a whole second within the range of
    datetimes, and writing the state and reading it back gives the same
    state. *)
Theorem from_redis_dict_result_roundtrips (data : gmap string redis_value)
    (s : State.MovingAverageCrossOverDetectorState) :
  State.from_redis_dict data = Ok s ->
  State.timestamp_is Datetime.whole_second s
  /\ State.timestamp_is Datetime.in_range s
  /\ State.roundtrip s = Ok s.
Proof.
  rewrite from_redis_dict_unfold. intros Hs.
  assert (Hts : match State.timestamp s with
                | Some d => exists t, d = t * 1000000
                    /\ Datetime.min_seconds <= t <= Datetime.max_seconds
                | None => True
                end).
  { destruct (data !! State.FIELD_TIMESTAMP) as [vT|].
    - destruct (py_int vT) as [t|]; [|discriminate]. simpl mbind in Hs.
      destruct (Datetime.fromtimestamp t) as [d|] eqn:Hd; [|discriminate].
      simpl mbind in Hs.
      destruct (getitem data State.FIELD_COUNT ≫= py_int); [|discriminate].
      destruct (getitem data State.FIELD_MOVING_AVG_SHORT ≫= py_float);
        [|discriminate].
      destruct (getitem data State.FIELD_MOVING_AVG_LONG ≫= py_float);
        [|discriminate].
      simpl in Hs. injection Hs as Hs. subst s. simpl.
      exists t. exact (fromtimestamp_ok t d Hd).
    - simpl mbind in Hs.
      destruct (getitem data State.FIELD_COUNT ≫= py_int); [|discriminate].
      destruct (getitem data State.FIELD_MOVING_AVG_SHORT ≫= py_float);
        [|discriminate].
      destruct (getitem data State.FIELD_MOVING_AVG_LONG ≫= py_float);
        [|discriminate].
      simpl in Hs. injection Hs as Hs. now subst s. }
  clear Hs. rewrite roundtrip_unfold. unfold State.timestamp_is.
  destruct s as [[d|] c x y];
    cbn [State.timestamp State.count State.moving_avg_short
         State.moving_avg_long] in *; [|done].
  destruct Hts as (t & -> & Ht).
  unfold Datetime.whole_second, Datetime.in_range,
    Datetime.min_seconds, Datetime.max_seconds in *.
  split; [apply Z.mod_mul; lia|]. split; [lia|].
  rewrite timestamp_whole_second
    by (change (2 ^ 53) with 9007199254740992; lia).
  simpl mbind. rewrite fromtimestamp_in_range
    by (unfold Datetime.min_seconds, Datetime.max_seconds; lia).
  reflexivity.
Qed.

(** The witness: the four fields as text. *)
Lemma from_redis_dict_result_roundtrips_witness :
  State.roundtrip
    {| State.timestamp := Some 1700000000000000; State.count := 5;
       State.moving_avg_short := 1.5; State.moving_avg_long := 2 |}
  = Ok {| State.timestamp := Some 1700000000000000; State.count := 5;
          State.moving_avg_short := 1.5; State.moving_avg_long := 2 |}.
Proof.
  apply (from_redis_dict_result_roundtrips
           {[ "T" := RStr "1700000000"; "C" := RStr "5"; "S" := RStr "1.5";
              "L" := RStr "2.0" ]}).
  vm_compute. reflexivity.
Defined.

(** ** The detector, beyond single calls *)

Lemma float_ltb_not_leb (a b : float) :
  (b <? a)%float = true -> (a <=? b)%float = false.
Proof.
  rewrite FloatAxioms.ltb_spec, FloatAxioms.leb_spec. unfold SFltb, SFleb.
  rewrite (SFcompare_antisym (Prim2SF a) (Prim2SF b)).
  destruct (SFcompare (Prim2SF a) (Prim2SF b)) as [[]|]; simpl; congruence.
Qed.

(** A detector built from a state and asked for its state at once: with
    averages whose [value] is what [set] stored, timestamp, count and
    short average come back, and the long average comes back as the
    short one. *)
Theorem state_of_init {S L : Type} {HS : MovingAverage S} {HL : MovingAverage L}
    (config : MovingAverageCrossOverDetectorConfig S L)
    (s : State.MovingAverageCrossOverDetectorState) :
  (forall (v : float) (n : Z) (a : S), ma_value (ma_set v n a) = v) ->
  Detector.state (Detector.init s config)
  = {| State.timestamp := State.timestamp s;
       State.count := State.count s;
       State.moving_avg_short := State.moving_avg_short s;
       State.moving_avg_long := State.moving_avg_short s |}.
Proof.
  intros Hset. unfold Detector.state, Detector.init.
  cbn [Detector.timestamp Detector.count Detector.moving_avg_short].
  now rewrite Hset.
Qed.

(** The witness: the state with averages 1.0 and 2.0 comes back with
    both at 1.0. *)
Lemma state_of_init_witness :
  Detector.state
    (Detector.init
       {| State.timestamp := Some 3; State.count := 3;
          State.moving_avg_short := 1; State.moving_avg_long := 2 |}
       (Averages.crossover_config 2))
  = {| State.timestamp := Some 3; State.count := 3;
       State.moving_avg_short := 1; State.moving_avg_long := 1 |}.
Proof.
  apply (state_of_init (Averages.crossover_config 2)
           {| State.timestamp := Some 3; State.count := 3;
              State.moving_avg_short := 1; State.moving_avg_long := 2 |}).
  reflexivity.
Defined.

Section DetectorRuns.

Context {S L : Type} {HS : MovingAverage S} {HL : MovingAverage L}.

Implicit Types (self : Detector.MovingAverageCrossOverDetector S L)
  (payload : Payload.DetectorPayload).

Lemma update_timestamp self payload (t : datetime) :
  Detector.timestamp self = Some t ->
  exists t', Detector.timestamp (fst (Detector.update self payload)) = Some t'
             /\ t <= t'.
Proof.
  intros Ht. destruct (Detector.out_of_order self payload) eqn:Hoo.
  - rewrite update_out_of_order by done. exists t. split; [done|lia].
  - destruct (update_accepted_fields self payload Hoo) as (_ & _ & -> & _).
    eexists. split; [reflexivity|].
    unfold Detector.out_of_order in Hoo. rewrite Ht in Hoo.
    apply Z.ltb_ge in Hoo. exact Hoo.
Qed.

(** Once the detector has a timestamp it keeps one, and no sequence of
    calls takes it back in time. *)
Theorem timestamp_never_goes_back self
    (payloads : list Payload.DetectorPayload) (t : datetime) :
  Detector.timestamp self = Some t ->
  exists t',
    Detector.timestamp (fst (Detector.run self payloads)) = Some t'
    /\ t <= t'.
Proof.
  revert self t. induction payloads as [|p ps IH]; intros self t Ht.
  - exists t. split; [exact Ht|lia].
  - rewrite run_cons. cbn [fst].
    destruct (update_timestamp self p t Ht) as (t1 & Ht1 & Hle1).
    destruct (IH _ t1 Ht1) as (t' & Ht' & Hle').
    exists t'. split; [exact Ht'|lia].
Qed.

(** Payloads that come in the order of their timestamps, none earlier
    than the detector's, are all accepted: every call returns a trend,
    the count goes up by their number, and the detector ends at the
    timestamp of the last one. *)
Theorem in_order_all_accepted self (payloads : list Payload.DetectorPayload) :
  Sorted Z.le
    (option_list (Detector.timestamp self)
     ++ map Payload.timestamp payloads) ->
  Forall is_Some (snd (Detector.run self payloads))
  /\ Detector.count (fst (Detector.run self payloads))
     = Detector.count self + Z.of_nat (length payloads)
  /\ Detector.timestamp (fst (Detector.run self payloads))
     = last (option_list (Detector.timestamp self)
             ++ map Payload.timestamp payloads).
Proof.
  revert self. induction payloads as [|p ps IH]; intros self Hsorted.
  - simpl. split; [constructor|]. split; [lia|].
    rewrite app_nil_r. now destruct (Detector.timestamp self).
  - assert (Hoo : Detector.out_of_order self p = false).
    { unfold Detector.out_of_order.
      destruct (Detector.timestamp self) as [t|]; [|done].
      simpl in Hsorted. apply Sorted_inv in Hsorted as [_ Hhd].
      apply HdRel_inv in Hhd. apply Z.ltb_ge. exact Hhd. }
    destruct (update_accepted_fields self p Hoo) as (_ & _ & Hts & Hc & _).
    destruct (update_accepted_returns self p Hoo) as [trend Htrend].
    assert (Hrest : Sorted Z.le
      (option_list (Detector.timestamp (fst (Detector.update self p)))
       ++ map Payload.timestamp ps)).
    { rewrite Hts. simpl.
      destruct (Detector.timestamp self); simpl in Hsorted;
        [now apply Sorted_inv in Hsorted as [Hsorted _]|exact Hsorted]. }
    destruct (IH _ Hrest) as (Hall & Hcount & Hlast).
    rewrite run_cons. cbn [fst snd]. split; [|split].
    + constructor; [exists trend; exact Htrend|exact Hall].
    + rewrite Hcount, Hc. cbn [length]. lia.
    + rewrite Hlast, Hts. simpl.
      destruct (Detector.timestamp self) as [t|]; simpl; [|reflexivity].
      now destruct (map Payload.timestamp ps).
Qed.

(** A signal is not given twice in a row: the call after one that
    returned [Regressed] does not return [Regressed], and the same for
    [Improved], whatever the next payload is. *)
Theorem signal_not_repeated self payload (next : Payload.DetectorPayload)
    (trend : TrendType) :
  snd (Detector.update self payload) = Some trend ->
  trend <> Unchanged ->
  snd (Detector.update (fst (Detector.update self payload)) next)
  <> Some trend.
Proof.
  intros Htrend Hsignal.
  set (self' := fst (Detector.update self payload)) in *.
  assert (Hcross :
    match trend with
    | Regressed =>
        (ma_value (Detector.moving_avg_long self')
         <? ma_value (Detector.moving_avg_short self'))%float = true
    | Improved =>
        (ma_value (Detector.moving_avg_short self')
         <? ma_value (Detector.moving_avg_long self'))%float = true
    | Unchanged => True
    end).
  { subst self'. revert Htrend. unfold Detector.update.
    destruct (Detector.out_of_order self payload); [discriminate|].
    cbv zeta.
    match goal with
    | |- context [if ?c1 then _ else if ?c2 then _ else _] =>
        destruct c1 eqn:H1; [|destruct c2 eqn:H2]
    end;
      cbn [fst snd]; intros Heq; injection Heq as Heq; subst trend;
      [apply andb_true_iff in H1 as [H1 _];
       apply andb_true_iff in H1 as [_ H1]; exact H1
      |apply andb_true_iff in H2 as [H2 _];
       apply andb_true_iff in H2 as [_ H2]; exact H2
      |exact I]. }
  clearbody self'. clear Htrend.
  unfold Detector.update.
  destruct (Detector.out_of_order self' next); [discriminate|].
  cbv zeta.
  destruct trend; [| |done].
  - rewrite (float_ltb_not_leb _ _ Hcross), !andb_false_r.
    destruct (_ && _ && _); cbn [snd]; discriminate.
  - pose proof (float_ltb_not_leb _ _ Hcross) as Hge.
    destruct (_ && _ && _); cbn [snd]; [discriminate|].
    rewrite Hge, !andb_false_r. cbn [snd]. discriminate.
Qed.

End DetectorRuns.

(** The witness: the resumed detector is at instant 3. *)
Lemma timestamp_never_goes_back_witness :
  exists t',
    Detector.timestamp
      (fst (Detector.run Averages.resumed
              [Averages.sample 2 100; Averages.sample 4 100]))
    = Some t'
    /\ 3 <= t'.
Proof.
  apply (timestamp_never_goes_back Averages.resumed
           [Averages.sample 2 100; Averages.sample 4 100] 3).
  reflexivity.
Defined.

(** The witness: the cross-over scenario at the instants 1 to 5. *)
Lemma in_order_all_accepted_witness :
  Detector.count
    (fst (Detector.run
            (Detector.init State.empty (Averages.crossover_config 2))
            (Averages.crossover_samples 1 2 3 4 5)))
  = 0 + 5.
Proof.
  apply (in_order_all_accepted
           (Detector.init State.empty (Averages.crossover_config 2))
           (Averages.crossover_samples 1 2 3 4 5)).
  simpl. repeat constructor; lia.
Defined.

(** The witness: the resumed detector reports [Regressed] at the step
    up to 100, and not again at the next sample. *)
Lemma signal_not_repeated_witness :
  snd (Detector.update
         (fst (Detector.update Averages.resumed (Averages.sample 4 100)))
         (Averages.sample 5 100))
  <> Some Regressed.
Proof.
  apply (signal_not_repeated Averages.resumed (Averages.sample 4 100)
           (Averages.sample 5 100) Regressed);
    [vm_compute; reflexivity|discriminate].
Defined.



